(** * Social-media analytics: the analyzers' queries as functions on a snapshot

    The analyzers of [src/analytics] are SQL queries (and a few lines of
    Python and pandas) run against the tables declared in
    [src/database/models.py].  A snapshot of the database is a record of
    lists of rows; every query is embedded clause by clause with the
    relational operators of the first part of this file (joins, grouping,
    aggregates, window rank, ordering, limit).  The operators follow
    PostgreSQL, the engine [src/config.py] selects by default: comparisons
    with NULL filter the row out, aggregates skip NULL, [STDDEV] is the
    sample standard deviation and is NULL on fewer than two values, and
    [ORDER BY ... DESC] places NULL first.

    A query fixes the order of its rows only as far as its [ORDER BY] keys
    go.  [sql_order_by] and [sql_group_by] compute one arrangement among
    those the engine may produce; what is proved of a result's order is
    proved of every arrangement ([ordered_result]) or stated up to
    permutation.  A call that the interpreter or the engine rejects returns
    [Raise] with the exception. *)

From Stdlib Require Import String Ascii.
From Stdlib Require Import List ZArith QArith Qround Qabs Bool Lia Lqa.
From Stdlib Require Import Permutation Sorted Arith.
Import ListNotations.
Local Open Scope Z_scope.

(** ** The tables of [src/database/models.py] *)

Definition timestamp := Z.

Module User.
Record t := mk {
  user_id : Z;
  username : string;
  full_name : string;
  email : option string;
  join_date : option timestamp;
  is_active : option bool
}.
End User.

Module Post.
Record t := mk {
  post_id : Z;
  user_id : Z;
  post_text : option string;
  media_url : option string;
  post_time : option timestamp;
  is_public : option bool
}.
End Post.

Module Comment.
Record t := mk {
  comment_id : Z;
  post_id : Z;
  user_id : Z;
  parent_comment_id : option Z;
  comment_text : string;
  comment_time : option timestamp
}.
End Comment.

Module Like.
Record t := mk {
  like_id : Z;
  post_id : option Z;
  comment_id : option Z;
  user_id : Z;
  like_time : option timestamp
}.
End Like.

Module Follow.
Record t := mk {
  follower_id : Z;
  followee_id : Z;
  follow_time : option timestamp
}.
End Follow.

Record database := mkdb {
  users : list User.t;
  posts : list Post.t;
  comments : list Comment.t;
  likes : list Like.t;
  follows : list Follow.t
}.

Definition empty_db : database := mkdb [] [] [] [] [].

(** ** Exceptions *)

(** The exceptions a call of an analyzer can end with: Python's
    [AttributeError] and [OverflowError], and SQLAlchemy's
    [ProgrammingError] (the engine cannot parse the statement) and
    [DataError] (a value lies outside the range of its SQL type). *)
Inductive py_error :=
| AttributeError
| OverflowError
| ProgrammingError
| DataError.

Inductive result (A : Type) : Type :=
| Ok (a : A)
| Raise (e : py_error).
Arguments Ok {A} a.
Arguments Raise {A} e.

Definition bind {A B} (m : result A) (k : A -> result B) : result B :=
  match m with
  | Ok a => k a
  | Raise e => Raise e
  end.

(** ** Relational operators *)

(** [a = b] in an [ON] or [WHERE] clause: NULL on either side filters the
    row out. *)
Definition sql_eq (a b : option Z) : bool :=
  match a, b with
  | Some x, Some y => x =? y
  | _, _ => false
  end.

(** [a >= b] on timestamps or integers, NULL-rejecting. *)
Definition sql_ge (a b : option Z) : bool :=
  match a, b with
  | Some x, Some y => y <=? x
  | _, _ => false
  end.

Definition is_null {A} (a : option A) : bool :=
  match a with None => true | Some _ => false end.

Definition sql_inner_join {A B} (on : A -> B -> bool)
    (l : list A) (r : list B) : list (A * B) :=
  flat_map (fun a => map (pair a) (filter (on a) r)) l.

(** The right-hand rows of a left join for one left row: the matches, or a
    single all-NULL row when there is none. *)
Definition null_extend {B} (matches : list B) : list (option B) :=
  match matches with
  | [] => [None]
  | _ :: _ => map Some matches
  end.

Definition sql_left_join {A B} (on : A -> B -> bool)
    (l : list A) (r : list B) : list (A * option B) :=
  flat_map (fun a => map (pair a) (null_extend (filter (on a) r))) l.

Definition eqb_of {K} (eq_dec : forall x y : K, {x = y} + {x <> y})
    (x y : K) : bool :=
  if eq_dec x y then true else false.

(** [GROUP BY key]: one group per distinct key, holding the rows with it.
    The engine returns the groups in no particular order; this is one
    enumeration of them. *)
Definition sql_group_by {A K} (eq_dec : forall x y : K, {x = y} + {x <> y})
    (key : A -> K) (rows : list A) : list (K * list A) :=
  map (fun k => (k, filter (fun r => eqb_of eq_dec (key r) k) rows))
      (nodup eq_dec (map key rows)).

(** The non-NULL values of a column. *)
Fixpoint non_null {A} (l : list (option A)) : list A :=
  match l with
  | [] => []
  | Some x :: t => x :: non_null t
  | None :: t => non_null t
  end.

(** [COUNT(DISTINCT e)]. *)
Definition count_distinct (l : list (option Z)) : Z :=
  Z.of_nat (length (nodup Z.eq_dec (non_null l))).

(** [COUNT( * )]. *)
Definition count_rows {A} (l : list A) : Z := Z.of_nat (length l).

Definition Zsum (l : list Z) : Z := fold_right Z.add 0 l.

(** [ROUND(x, 2)] on numeric: to the nearest hundredth, ties away from
    zero. *)
Definition round_half_away (x : Q) : Z :=
  if Qle_bool 0 x then Qfloor (x + (1 # 2))%Q
  else - Qfloor (- x + (1 # 2))%Q.

Definition round2 (x : Q) : Q := Qred (round_half_away (x * 100) # 100).

(** [AVG(e)] on integers: numeric, NULL on no value. *)
Definition sql_avg (l : list Z) : option Q :=
  match l with
  | [] => None
  | _ :: _ => Some (inject_Z (Zsum l) / inject_Z (Z.of_nat (length l)))%Q
  end.

(** What [ORDER BY] promises of its output: the rows of its input, arranged
    so that no row comes after one it has to precede; [before x y] says that
    [x] may precede [y].  Rows that tie on every sort key may come in any
    order. *)
Definition ordered_result {A} (before : A -> A -> bool) (rows out : list A)
    : Prop :=
  Permutation rows out /\ StronglySorted (fun a b => before a b = true) out.

(** [ORDER BY] as a function: an insertion sort, which computes one of the
    arrangements [ordered_result] allows. *)
Fixpoint insert_row {A} (before : A -> A -> bool) (x : A) (l : list A)
    : list A :=
  match l with
  | [] => [x]
  | y :: t => if before x y then x :: l else y :: insert_row before x t
  end.

Definition sql_order_by {A} (before : A -> A -> bool) (l : list A) : list A :=
  fold_right (insert_row before) [] l.

(** Comparison of one [DESC] sort key, NULL first. *)
Definition cmp_desc_Q (a b : option Q) : comparison :=
  match a, b with
  | None, None => Eq
  | None, Some _ => Lt
  | Some _, None => Gt
  | Some x, Some y => (y ?= x)%Q
  end.

Definition not_after (c : comparison) : bool :=
  match c with Gt => false | _ => true end.

(** [LIMIT n]: the count is a [bigint]; the statement fails on a negative
    count and on one that does not fit. *)
Definition sql_limit {A} (n : Z) (l : list A) : result (list A) :=
  if (n <? 0) || (9223372036854775807 <? n) then Raise DataError
  else Ok (firstn (Z.to_nat n) l).

(** [RANK() OVER (ORDER BY key DESC)]: one more than the number of rows that
    sort strictly before the current one. *)
Definition sql_rank_desc {A} (key : A -> Z) (rows : list A) (r : A) : Z :=
  1 + count_rows (filter (fun r' => key r <? key r') rows).

(** ** [ContentAnalyzer.analyze_thread_depth] *)

Module ThreadDepth.
(** The columns of the statement's select list. *)
Record t := mk {
  post_id : Z;
  post_preview : option string;
  total_comments : Z;
  max_thread_depth : option Z;
  avg_thread_depth : option Q;
  unique_participants : Z;
  participants : string
}.
End ThreadDepth.

(** An aggregate call of a select list, as written in the statement: the
    function, whether [DISTINCT] and an inner [ORDER BY] are present, and
    the text of a [SEPARATOR] clause if there is one. *)
Record aggregate_call := Aggregate {
  function_name : string;
  distinct_values : bool;
  inner_order_by : bool;
  separator : option string
}.

(** The select list of [analyze_thread_depth] (lines 50 to 54):
    [COUNT(DISTINCT ct.comment_id)], [MAX(ct.depth)], [AVG(ct.depth)] inside
    [ROUND], [COUNT(DISTINCT ct.user_id)] and
    [GROUP_CONCAT(DISTINCT u.username ORDER BY u.username SEPARATOR ', ')]. *)
Definition thread_depth_aggregates : list aggregate_call :=
  [Aggregate "COUNT" true false None;
   Aggregate "MAX" false false None;
   Aggregate "AVG" false false None;
   Aggregate "COUNT" true false None;
   Aggregate "GROUP_CONCAT" true true (Some ", "%string)].

(** PostgreSQL's grammar lets an aggregate call hold [DISTINCT] and an
    [ORDER BY], and knows no [SEPARATOR] clause: a call with one does not
    parse. *)
Definition postgres_parses (a : aggregate_call) : bool :=
  is_null (separator a).

Definition statement_parses (aggregates : list aggregate_call) : bool :=
  forallb postgres_parses aggregates.

Section ThreadDepthStatement.
(** The rows the statement describes (the recursive [comment_threads], the
    grouping by post, the [HAVING] and [ORDER BY] clauses).  No call gets as
    far as computing them, and they are given no meaning here. *)
Variable selected_rows : database -> Z -> list ThreadDepth.t.

(** [session.execute(text(query), {'min_depth': min_depth})]: the engine
    parses the statement before it reads a row, and rejects one that does
    not parse with [ProgrammingError]. *)
Definition analyze_thread_depth (db : database) (min_depth : Z)
    : result (list ThreadDepth.t) :=
  if statement_parses thread_depth_aggregates
  then Ok (selected_rows db min_depth)
  else Raise ProgrammingError.
End ThreadDepthStatement.

(** Integrity constraints of the schema. *)
Definition comments_pk (db : database) : Prop :=
  NoDup (map Comment.comment_id (comments db)).

Definition comment_author_fk (db : database) : Prop :=
  forall c, In c (comments db) ->
    exists u, In u (users db) /\ User.user_id u = Comment.user_id c.

(** A snapshot with a thread three comments deep on post 1 and a single
    top-level comment on post 2. *)
Definition alice : User.t := User.mk 1 "alice" "Alice Smith" None None None.
Definition bob : User.t := User.mk 2 "bob" "Bob Jones" None None None.
Definition carol : User.t := User.mk 3 "carol" "Carol Diaz" None None None.

Definition thread_c1 : Comment.t := Comment.mk 1 1 2 None "first" None.
Definition thread_c2 : Comment.t := Comment.mk 2 1 1 (Some 1) "reply" None.
Definition thread_c3 : Comment.t := Comment.mk 3 1 2 (Some 2) "again" None.
Definition thread_c4 : Comment.t := Comment.mk 4 2 1 None "alone" None.

Definition thread_db : database :=
  mkdb [alice; bob]
       [Post.mk 1 1 (Some "deep"%string) None None None;
        Post.mk 2 2 (Some "flat"%string) None None None]
       [thread_c1; thread_c2; thread_c3; thread_c4]
       [] [].

(** A snapshot whose posts table holds post 2 before post 1, each with one
    top-level comment. *)
Definition tie_db : database :=
  mkdb [alice; bob]
       [Post.mk 2 2 (Some "second"%string) None None None;
        Post.mk 1 1 (Some "first"%string) None None None]
       [Comment.mk 1 1 2 None "on first" None;
        Comment.mk 2 2 1 None "on second" None]
       [] [].

(** ** [EngagementAnalyzer.get_post_engagement] *)

(** Timestamps count microseconds from 1970-01-01 00:00 UTC;
    [timedelta(days=d)]. *)
Definition timedelta_days (d : Z) : Z := d * 86400000000.

Module PostStats.
(** A row of the CTE [post_stats]. *)
Record t := mk {
  post_id : Z;
  author_id : Z;
  author_name : string;
  post_text : option string;
  post_time : option timestamp;
  like_count : Z;
  comment_count : Z;
  follower_count : Z
}.
End PostStats.

Module PostEngagement.
Record t := mk {
  post_id : Z;
  author_id : Z;
  author_name : string;
  post_text : option string;
  post_time : option timestamp;
  like_count : Z;
  comment_count : Z;
  follower_count : Z;
  engagement_rate : option Q;
  engagement_rank : Z
}.
End PostEngagement.

Definition post_joined : Type :=
  Post.t * option Like.t * option Comment.t * User.t * option Follow.t.

Definition pj_post (r : post_joined) : Post.t := fst (fst (fst (fst r))).
Definition pj_like (r : post_joined) : option Like.t :=
  snd (fst (fst (fst r))).
Definition pj_comment (r : post_joined) : option Comment.t :=
  snd (fst (fst r)).
Definition pj_user (r : post_joined) : User.t := snd (fst r).
Definition pj_follow (r : post_joined) : option Follow.t := snd r.

(** [FROM posts p LEFT JOIN likes l ON p.post_id = l.post_id
    LEFT JOIN comments c ON p.post_id = c.post_id
    JOIN users u ON p.user_id = u.user_id
    LEFT JOIN follows f ON p.user_id = f.followee_id
    WHERE p.post_time >= :start_date]. *)
Definition post_join (db : database) (start_date : timestamp)
    : list post_joined :=
  filter
    (fun r => sql_ge (Post.post_time (pj_post r)) (Some start_date))
    (sql_left_join
       (fun r f => Post.user_id (fst (fst (fst r))) =? Follow.followee_id f)
       (sql_inner_join
          (fun r u => Post.user_id (fst (fst r)) =? User.user_id u)
          (sql_left_join
             (fun r c => Post.post_id (fst r) =? Comment.post_id c)
             (sql_left_join
                (fun p l => sql_eq (Some (Post.post_id p)) (Like.post_id l))
                (posts db) (likes db))
             (comments db))
          (users db))
       (follows db)).

Definition post_key : Type :=
  Z * Z * string * option string * option timestamp.

Definition post_key_dec (x y : post_key) : {x = y} + {x <> y}.
Proof.
  repeat decide equality.
Defined.

Definition post_key_of (r : post_joined) : post_key :=
  (Post.post_id (pj_post r), Post.user_id (pj_post r),
   User.username (pj_user r), Post.post_text (pj_post r),
   Post.post_time (pj_post r)).

Definition post_stats_row (g : post_key * list post_joined) : PostStats.t :=
  match fst g with
  | (pid, author, name, text, time) =>
      PostStats.mk pid author name text time
        (count_distinct
           (map (fun r => option_map Like.user_id (pj_like r)) (snd g)))
        (count_distinct
           (map (fun r => option_map Comment.comment_id (pj_comment r))
                (snd g)))
        (count_distinct
           (map (fun r => option_map Follow.follower_id (pj_follow r))
                (snd g)))
  end.

Definition post_stats (db : database) (start_date : timestamp)
    : list PostStats.t :=
  map post_stats_row
      (sql_group_by post_key_dec post_key_of (post_join db start_date)).

(** [NULLIF(a, b)]. *)
Definition nullif (a b : Z) : option Z := if a =? b then None else Some a.

Definition combined_count (s : PostStats.t) : Z :=
  PostStats.like_count s + PostStats.comment_count s.

(** [ROUND((like_count + comment_count) * 100.0
           / NULLIF(follower_count, 0), 2)]. *)
Definition engagement_rate_of (s : PostStats.t) : option Q :=
  option_map
    (fun f => round2 (inject_Z (combined_count s * 100) / inject_Z f)%Q)
    (nullif (PostStats.follower_count s) 0).

Definition post_engagement_row (all : list PostStats.t) (s : PostStats.t)
    : PostEngagement.t :=
  PostEngagement.mk
    (PostStats.post_id s) (PostStats.author_id s) (PostStats.author_name s)
    (PostStats.post_text s) (PostStats.post_time s)
    (PostStats.like_count s) (PostStats.comment_count s)
    (PostStats.follower_count s)
    (engagement_rate_of s)
    (sql_rank_desc combined_count all s).

(** The rows the statement of [get_post_engagement] selects, with
    [:start_date] bound to [now - timedelta(days)]. *)
Definition get_post_engagement (now : timestamp) (days : Z) (db : database)
    : list PostEngagement.t :=
  let start_date := now - timedelta_days days in
  let stats := post_stats db start_date in
  sql_order_by
    (fun a b => not_after (cmp_desc_Q (PostEngagement.engagement_rate a)
                                      (PostEngagement.engagement_rate b)))
    (map (post_engagement_row stats) stats).

(** [datetime.min] and [datetime.max]: 0001-01-01 00:00:00 and
    9999-12-31 23:59:59.999999. *)
Definition datetime_min : timestamp := -62135596800000000.
Definition datetime_max : timestamp := 253402300799999999.

(** [datetime.utcnow() - timedelta(days=days)] (line 48): a [timedelta]
    holds at most 999999999 days either way and the difference has to be a
    [datetime]; otherwise Python raises [OverflowError]. *)
Definition utc_start_date (now : timestamp) (days : Z) : result timestamp :=
  if (Z.abs days <=? 999999999)
     && (datetime_min <=? now - timedelta_days days)
     && (now - timedelta_days days <=? datetime_max)
  then Ok (now - timedelta_days days)
  else Raise OverflowError.

(** A call of [get_post_engagement]: the start date is computed while the
    parameters of [session.execute] are built, then the statement runs. *)
Definition get_post_engagement_call (now : timestamp) (days : Z)
    (db : database) : result (list PostEngagement.t) :=
  bind (utc_start_date now days)
    (fun _ => Ok (get_post_engagement now days db)).

(** The likes and comments of one post and the follow edges into one user,
    read off the tables. *)
Definition likes_on (db : database) (pid : Z) : list Like.t :=
  filter (fun l => sql_eq (Some pid) (Like.post_id l)) (likes db).

Definition comments_on (db : database) (pid : Z) : list Comment.t :=
  filter (fun c => pid =? Comment.post_id c) (comments db).

Definition followers_of (db : database) (uid : Z) : list Follow.t :=
  filter (fun f => uid =? Follow.followee_id f) (follows db).

Definition distinct_likers (db : database) (pid : Z) : Z :=
  count_distinct (map (fun l => Some (Like.user_id l)) (likes_on db pid)).

Definition distinct_comments (db : database) (pid : Z) : Z :=
  count_distinct
    (map (fun c => Some (Comment.comment_id c)) (comments_on db pid)).

Definition distinct_followers (db : database) (uid : Z) : Z :=
  count_distinct
    (map (fun f => Some (Follow.follower_id f)) (followers_of db uid)).

Definition combined (r : PostEngagement.t) : Z :=
  PostEngagement.like_count r + PostEngagement.comment_count r.

(** The dense rank of the documentation: one more than the number of
    distinct combined counts above the row's own. *)
Definition dense_rank_desc (rows : list PostEngagement.t)
    (r : PostEngagement.t) : Z :=
  1 + count_distinct
        (map (fun r' => Some (combined r'))
             (filter (fun r' => combined r <? combined r') rows)).

Definition dave : User.t := User.mk 4 "dave" "Dave Lee" None None None.

Definition now0 : timestamp := 1700000000000000.

(** One recent post by alice with one like and no comment; alice has three
    followers. *)
Definition third_db : database :=
  mkdb [alice; bob; carol; dave]
       [Post.mk 1 1 (Some "hello"%string) None (Some 1699990000000000) None]
       []
       [Like.mk 1 (Some 1) None 2 None]
       [Follow.mk 2 1 None; Follow.mk 3 1 None; Follow.mk 4 1 None].

(** Three recent posts by alice, who has one follower: posts 1 and 2 have
    one like each, post 3 has none. *)
Definition rank_db : database :=
  mkdb [alice; bob]
       [Post.mk 1 1 None None (Some 1699990000000000) None;
        Post.mk 2 1 None None (Some 1699990000000001) None;
        Post.mk 3 1 None None (Some 1699990000000002) None]
       []
       [Like.mk 1 (Some 1) None 2 None; Like.mk 2 (Some 2) None 2 None]
       [Follow.mk 2 1 None].

(** ** [EngagementAnalyzer.get_user_engagement_summary] *)

Module UserEngagement.
Record t := mk {
  user_id : Z;
  username : string;
  post_count : Z;
  likes_received : Z;
  comments_received : Z;
  follower_count : Z;
  following_count : Z;
  avg_like_rate : option Q;
  avg_comment_rate : option Q
}.
End UserEngagement.

Definition user_joined : Type :=
  User.t * option Post.t * option Like.t * option Comment.t
  * option Follow.t * option Follow.t.

Definition uj_user (r : user_joined) : User.t :=
  fst (fst (fst (fst (fst r)))).
Definition uj_post (r : user_joined) : option Post.t :=
  snd (fst (fst (fst (fst r)))).
Definition uj_like (r : user_joined) : option Like.t :=
  snd (fst (fst (fst r))).
Definition uj_comment (r : user_joined) : option Comment.t :=
  snd (fst (fst r)).
Definition uj_follower (r : user_joined) : option Follow.t := snd (fst r).
Definition uj_following (r : user_joined) : option Follow.t := snd r.

(** [FROM users u LEFT JOIN posts p ON u.user_id = p.user_id
    LEFT JOIN likes l ON p.post_id = l.post_id
    LEFT JOIN comments c ON p.post_id = c.post_id
    LEFT JOIN follows f ON u.user_id = f.followee_id
    LEFT JOIN follows fl ON u.user_id = fl.follower_id]. *)
Definition user_join (db : database) : list user_joined :=
  sql_left_join
    (fun r fl =>
       User.user_id (fst (fst (fst (fst r)))) =? Follow.follower_id fl)
    (sql_left_join
       (fun r f => User.user_id (fst (fst (fst r))) =? Follow.followee_id f)
       (sql_left_join
          (fun r c =>
             sql_eq (option_map Post.post_id (snd (fst r)))
                    (Some (Comment.post_id c)))
          (sql_left_join
             (fun r l =>
                sql_eq (option_map Post.post_id (snd r)) (Like.post_id l))
             (sql_left_join
                (fun u p => User.user_id u =? Post.user_id p)
                (users db) (posts db))
             (likes db))
          (comments db))
       (follows db))
    (follows db).

Definition user_key_dec (x y : Z * string) : {x = y} + {x <> y}.
Proof.
  repeat decide equality.
Defined.

Definition user_key_of (u : User.t) : Z * string :=
  (User.user_id u, User.username u).

(** [ROUND(n * 100.0 / NULLIF(d, 0), 2)]. *)
Definition rate_per_follower (n d : Z) : option Q :=
  option_map (fun f => round2 (inject_Z (n * 100) / inject_Z f)%Q)
             (nullif d 0).

Definition user_engagement_row (g : (Z * string) * list user_joined)
    : UserEngagement.t :=
  let likes_received :=
    count_distinct (map (fun r => option_map Like.like_id (uj_like r)) (snd g))
  in
  let comments_received :=
    count_distinct
      (map (fun r => option_map Comment.comment_id (uj_comment r)) (snd g)) in
  let follower_count :=
    count_distinct
      (map (fun r => option_map Follow.follower_id (uj_follower r)) (snd g))
  in
  UserEngagement.mk
    (fst (fst g)) (snd (fst g))
    (count_distinct (map (fun r => option_map Post.post_id (uj_post r)) (snd g)))
    likes_received
    comments_received
    follower_count
    (count_distinct
       (map (fun r => option_map Follow.followee_id (uj_following r)) (snd g)))
    (rate_per_follower likes_received follower_count)
    (rate_per_follower comments_received follower_count).

(** [GROUP BY u.user_id, u.username ORDER BY likes_received DESC]. *)
Definition get_user_engagement_summary (db : database)
    : list UserEngagement.t :=
  sql_order_by
    (fun a b => UserEngagement.likes_received b
                <=? UserEngagement.likes_received a)
    (map user_engagement_row
       (sql_group_by user_key_dec (fun r => user_key_of (uj_user r))
          (user_join db))).

(** The posts of a user, and the likes and comments attached to them, read
    off the tables. *)
Definition posts_of (db : database) (uid : Z) : list Post.t :=
  filter (fun p => uid =? Post.user_id p) (posts db).

Definition likes_on_posts_of (db : database) (uid : Z) : list Like.t :=
  filter
    (fun l => existsb (fun p => sql_eq (Some (Post.post_id p)) (Like.post_id l))
                      (posts_of db uid))
    (likes db).

Definition comments_on_posts_of (db : database) (uid : Z) : list Comment.t :=
  filter
    (fun c => existsb (fun p => Post.post_id p =? Comment.post_id c)
                      (posts_of db uid))
    (comments db).

(** The snapshot without the likes whose target is a comment. *)
Definition without_comment_likes (db : database) : database :=
  mkdb (users db) (posts db) (comments db)
       (filter (fun l => negb (is_null (Like.post_id l))) (likes db))
       (follows db).

(** Alice's post 1 has one comment by bob; carol liked the post and dave
    liked the comment. *)
Definition comment_like_db : database :=
  mkdb [alice; bob; carol; dave]
       [Post.mk 1 1 (Some "hello"%string) None None None]
       [Comment.mk 1 1 2 None "nice" None]
       [Like.mk 1 (Some 1) None 3 None; Like.mk 2 None (Some 1) 4 None]
       [Follow.mk 2 1 None].

(** ** [ContentAnalyzer.get_top_contributors] *)

Module Contributor.
Record t := mk {
  user_id : Z;
  username : string;
  post_count : Z;
  comment_count : Z;
  like_count : Z;
  new_following : Z;
  new_followers : Z;
  activity_score : Z
}.
End Contributor.

(** The timestamps PostgreSQL represents: from 4713 BC up to, and not
    including, the year 294277. *)
Definition pg_timestamp_min : timestamp := -210866803200000000.
Definition pg_timestamp_end : timestamp := 9224318016000000000.

(** [NOW() - INTERVAL ':days DAYS']: [text()] binds every [:days], the one
    inside the quotes included, to the [days] argument.  The day field of an
    interval is a 32-bit integer and the difference has to be a timestamp;
    otherwise the statement fails with a [DataError]. *)
Definition window_start (now : timestamp) (days : Z) : result timestamp :=
  if (-2147483648 <=? days) && (days <=? 2147483647)
     && (pg_timestamp_min <=? now - timedelta_days days)
     && (now - timedelta_days days <? pg_timestamp_end)
  then Ok (now - timedelta_days days)
  else Raise DataError.

Definition activity_joined : Type :=
  User.t * option Post.t * option Comment.t * option Like.t
  * option Follow.t * option Follow.t.

Definition aj_user (r : activity_joined) : User.t :=
  fst (fst (fst (fst (fst r)))).
Definition aj_post (r : activity_joined) : option Post.t :=
  snd (fst (fst (fst (fst r)))).
Definition aj_comment (r : activity_joined) : option Comment.t :=
  snd (fst (fst (fst r))).
Definition aj_like (r : activity_joined) : option Like.t :=
  snd (fst (fst r)).
Definition aj_following (r : activity_joined) : option Follow.t :=
  snd (fst r).
Definition aj_followers (r : activity_joined) : option Follow.t := snd r.

(** The events of one user on or after [w], read off the tables. *)
Definition recent_posts (db : database) (w : timestamp) (uid : Z)
    : list Post.t :=
  filter (fun p => (uid =? Post.user_id p)
                   && sql_ge (Post.post_time p) (Some w)) (posts db).

Definition recent_comments (db : database) (w : timestamp) (uid : Z)
    : list Comment.t :=
  filter (fun c => (uid =? Comment.user_id c)
                   && sql_ge (Comment.comment_time c) (Some w)) (comments db).

Definition recent_likes (db : database) (w : timestamp) (uid : Z)
    : list Like.t :=
  filter (fun l => (uid =? Like.user_id l)
                   && sql_ge (Like.like_time l) (Some w)) (likes db).

Definition recent_following (db : database) (w : timestamp) (uid : Z)
    : list Follow.t :=
  filter (fun f => (uid =? Follow.follower_id f)
                   && sql_ge (Follow.follow_time f) (Some w)) (follows db).

Definition recent_followers (db : database) (w : timestamp) (uid : Z)
    : list Follow.t :=
  filter (fun f => (uid =? Follow.followee_id f)
                   && sql_ge (Follow.follow_time f) (Some w)) (follows db).

(** [FROM users u
    LEFT JOIN posts p ON u.user_id = p.user_id AND p.post_time >= w
    LEFT JOIN comments c ON u.user_id = c.user_id AND c.comment_time >= w
    LEFT JOIN likes l ON u.user_id = l.user_id AND l.like_time >= w
    LEFT JOIN follows f ON u.user_id = f.follower_id AND f.follow_time >= w
    LEFT JOIN follows f2 ON u.user_id = f2.followee_id
                         AND f2.follow_time >= w]. *)
Definition activity_join (db : database) (w : timestamp)
    : list activity_joined :=
  sql_left_join
    (fun r f2 =>
       (User.user_id (fst (fst (fst (fst r)))) =? Follow.followee_id f2)
       && sql_ge (Follow.follow_time f2) (Some w))
    (sql_left_join
       (fun r f =>
          (User.user_id (fst (fst (fst r))) =? Follow.follower_id f)
          && sql_ge (Follow.follow_time f) (Some w))
       (sql_left_join
          (fun r l =>
             (User.user_id (fst (fst r)) =? Like.user_id l)
             && sql_ge (Like.like_time l) (Some w))
          (sql_left_join
             (fun r c =>
                (User.user_id (fst r) =? Comment.user_id c)
                && sql_ge (Comment.comment_time c) (Some w))
             (sql_left_join
                (fun u p =>
                   (User.user_id u =? Post.user_id p)
                   && sql_ge (Post.post_time p) (Some w))
                (users db) (posts db))
             (comments db))
          (likes db))
       (follows db))
    (follows db).

(** [CASE WHEN f.follow_time >= w THEN e END]. *)
Definition case_recent (w : timestamp) (col : Follow.t -> Z)
    (f : option Follow.t) : option Z :=
  match f with
  | Some e => if sql_ge (Follow.follow_time e) (Some w) then Some (col e)
              else None
  | None => None
  end.

Definition user_activity_row (w : timestamp)
    (g : (Z * string) * list activity_joined) : Contributor.t :=
  let post_count :=
    count_distinct (map (fun r => option_map Post.post_id (aj_post r)) (snd g))
  in
  let comment_count :=
    count_distinct
      (map (fun r => option_map Comment.comment_id (aj_comment r)) (snd g)) in
  let like_count :=
    count_distinct (map (fun r => option_map Like.like_id (aj_like r)) (snd g))
  in
  let new_following :=
    count_distinct
      (map (fun r => case_recent w Follow.followee_id (aj_following r))
           (snd g)) in
  let new_followers :=
    count_distinct
      (map (fun r => case_recent w Follow.follower_id (aj_followers r))
           (snd g)) in
  Contributor.mk
    (fst (fst g)) (snd (fst g))
    post_count comment_count like_count new_following new_followers
    (post_count * 3 + comment_count * 2 + like_count * 1 + new_followers * 5).

Definition user_activity (db : database) (w : timestamp)
    : list Contributor.t :=
  map (user_activity_row w)
      (sql_group_by user_key_dec (fun r => user_key_of (aj_user r))
         (activity_join db w)).

(** [ORDER BY activity_score DESC]: a row may precede another when its score
    is not lower. *)
Definition score_desc (a b : Contributor.t) : bool :=
  Contributor.activity_score b <=? Contributor.activity_score a.

(** The results a call of [get_top_contributors] can have.  The grouped
    rows come in some order that [ORDER BY activity_score DESC] allows, and
    [LIMIT :limit] keeps the first of them; an interval or a limit out of
    range fails the statement. *)
Definition get_top_contributors_returns (now : timestamp) (days limit : Z)
    (db : database) (res : result (list Contributor.t)) : Prop :=
  match window_start now days with
  | Raise e => res = Raise e
  | Ok w =>
      exists sorted,
        ordered_result score_desc (user_activity db w) sorted /\
        res = sql_limit limit sorted
  end.

(** One of these results, computed with [sql_order_by]. *)
Definition get_top_contributors (now : timestamp) (days limit : Z)
    (db : database) : result (list Contributor.t) :=
  bind (window_start now days)
    (fun w => sql_limit limit (sql_order_by score_desc (user_activity db w))).

Definition in_window (w : timestamp) (t : option timestamp) : bool :=
  sql_ge t (Some w).

(** The snapshot without the events that are older than [w] or undated. *)
Definition since (w : timestamp) (db : database) : database :=
  mkdb (users db)
       (filter (fun p => in_window w (Post.post_time p)) (posts db))
       (filter (fun c => in_window w (Comment.comment_time c)) (comments db))
       (filter (fun l => in_window w (Like.like_time l)) (likes db))
       (filter (fun f => in_window w (Follow.follow_time f)) (follows db)).

(** Bob posted once 40 days ago and once yesterday, and followed alice 40
    days ago. *)
Definition window_db : database :=
  mkdb [alice; bob]
       [Post.mk 1 2 None None (Some (now0 - timedelta_days 40)) None;
        Post.mk 2 2 None None (Some (now0 - timedelta_days 1)) None]
       [Comment.mk 1 2 1 None "hi" (Some (now0 - timedelta_days 2))]
       [Like.mk 1 (Some 2) None 1 (Some (now0 - timedelta_days 35))]
       [Follow.mk 2 1 (Some (now0 - timedelta_days 40))].

(** Five users without any activity. *)
Definition erin : User.t := User.mk 5 "erin" "Erin Moss" None None None.

Definition five_idle_db : database :=
  mkdb [alice; bob; carol; dave; erin] [] [] [] [].

(** The row of a user without activity in the window. *)
Definition idle_row (u : User.t) : Contributor.t :=
  Contributor.mk (User.user_id u) (User.username u) 0 0 0 0 0 0.

(** ** [ContentAnalyzer.identify_controversial_posts] *)

(** A non-negative real number kept exactly, as the square root of a
    rational. *)
Record root := Sqrt { radicand : Q }.

(** [r >= m] for a rational [m]. *)
Definition root_ge (r : root) (m : Q) : bool :=
  Qle_bool m 0 || Qle_bool (m * m) (radicand r).

(** [r * n] for a count [n]. *)
Definition root_scale (r : root) (n : Z) : root :=
  Sqrt (radicand r * inject_Z n * inject_Z n).

Definition cmp_desc_root (a b : option root) : comparison :=
  match a, b with
  | None, None => Eq
  | None, Some _ => Lt
  | Some _, None => Gt
  | Some x, Some y => (radicand y ?= radicand x)%Q
  end.

Definition Zsum_sq (l : list Z) : Z := Zsum (map (fun x => x * x) l).

(** [STDDEV(e)] on integers, that is [stddev_samp]: NULL on fewer than two
    values; otherwise the root of [(N * sum(x^2) - sum(x)^2) / (N * (N - 1))],
    the form in which the aggregate accumulates it. *)
Definition sql_stddev (l : list Z) : option root :=
  let n := Z.of_nat (length l) in
  if n <=? 1 then None
  else Some (Sqrt (inject_Z (n * Zsum_sq l - Zsum l * Zsum l)
                   / inject_Z (n * (n - 1)))).

(** The sum of the squared deviations of the values from [mean]. *)
Definition sum_sq_dev (mean : Q) (l : list Z) : Q :=
  fold_right (fun x acc => (inject_Z x - mean) * (inject_Z x - mean) + acc)%Q
             0%Q l.

Definition mean_of (l : list Z) : Q :=
  (inject_Z (Zsum l) / inject_Z (Z.of_nat (length l)))%Q.

(** The dispersion as the documentation defines it: the sample standard
    deviation, and 0 for a single value. *)
Definition stddev_documented (l : list Z) : option root :=
  match l with
  | [] => None
  | [_] => Some (Sqrt 0)
  | _ => Some (Sqrt (sum_sq_dev (mean_of l) l
                     / inject_Z (Z.of_nat (length l) - 1)))
  end.

(** A string holds the UTF-8 bytes of a text; the bytes [10xxxxxx] continue
    a character that an earlier byte began. *)
Definition is_continuation_byte (a : ascii) : bool :=
  (128 <=? nat_of_ascii a)%nat && (nat_of_ascii a <? 192)%nat.

Fixpoint char_length (s : string) : nat :=
  match s with
  | EmptyString => O
  | String a t =>
      if is_continuation_byte a then char_length t else S (char_length t)
  end.

(** [LENGTH(comment_text)]: the number of characters. *)
Definition text_length (c : Comment.t) : Z :=
  Z.of_nat (char_length (Comment.comment_text c)).

Module CommentStats.
(** A row of the CTE [comment_stats]. *)
Record t := mk {
  post_id : Z;
  total_comments : Z;
  avg_comment_length : option Q;
  stddev_comment_length : option root;
  unique_commenters : Z
}.
End CommentStats.

Module ReplyDepth.
(** A row of the CTE [reply_depth]. *)
Record t := mk {
  post_id : Z;
  reply_count : Z;
  avg_reply_length : option Q
}.
End ReplyDepth.

Module Controversial.
Record t := mk {
  post_id : Z;
  post_text : option string;
  post_time : option timestamp;
  author : string;
  total_comments : Z;
  unique_commenters : Z;
  avg_comment_length : option Q;
  stddev_comment_length : option root;
  reply_count : Z;
  avg_reply_length : Q;
  controversy_score : option root
}.
End Controversial.

Definition comment_stats_row (g : Z * list Comment.t) : CommentStats.t :=
  CommentStats.mk
    (fst g)
    (count_rows (snd g))
    (sql_avg (map text_length (snd g)))
    (sql_stddev (map text_length (snd g)))
    (count_distinct (map (fun c => Some (Comment.user_id c)) (snd g))).

(** [FROM comments GROUP BY post_id HAVING COUNT( * ) >= :min_comments]. *)
Definition comment_stats (db : database) (min_comments : Z)
    : list CommentStats.t :=
  map comment_stats_row
    (filter (fun g => min_comments <=? count_rows (snd g))
       (sql_group_by Z.eq_dec Comment.post_id (comments db))).

(** [FROM comments c1 JOIN comments c2
    ON c1.comment_id = c2.parent_comment_id GROUP BY c1.post_id]. *)
Definition reply_depth (db : database) : list ReplyDepth.t :=
  map (fun g : Z * list (Comment.t * Comment.t) =>
         ReplyDepth.mk (fst g)
           (count_rows (snd g))
           (sql_avg (map (fun r => text_length (snd r)) (snd g))))
    (sql_group_by Z.eq_dec (fun r => Comment.post_id (fst r))
       (sql_inner_join
          (fun c1 c2 => sql_eq (Some (Comment.comment_id c1))
                               (Comment.parent_comment_id c2))
          (comments db) (comments db))).

(** [COALESCE(e, 0)]. *)
Definition coalesce {A} (e : option A) (d : A) : A :=
  match e with Some x => x | None => d end.

Definition controversial_row
    (r : Post.t * CommentStats.t * option ReplyDepth.t * User.t)
    : Controversial.t :=
  let p := fst (fst (fst r)) in
  let cs := snd (fst (fst r)) in
  let rd := snd (fst r) in
  let u := snd r in
  Controversial.mk
    (Post.post_id p) (Post.post_text p) (Post.post_time p) (User.username u)
    (CommentStats.total_comments cs)
    (CommentStats.unique_commenters cs)
    (CommentStats.avg_comment_length cs)
    (CommentStats.stddev_comment_length cs)
    (coalesce (option_map ReplyDepth.reply_count rd) 0)
    (coalesce (match rd with
               | Some d => ReplyDepth.avg_reply_length d
               | None => None
               end) 0%Q)
    (option_map (fun s => root_scale s (CommentStats.total_comments cs))
                (CommentStats.stddev_comment_length cs)).

(** [FROM posts p JOIN comment_stats cs ON p.post_id = cs.post_id
    LEFT JOIN reply_depth rd ON p.post_id = rd.post_id
    JOIN users u ON p.user_id = u.user_id
    WHERE cs.stddev_comment_length >= :min_stddev
    ORDER BY controversy_score DESC]. *)
Definition identify_controversial_posts (min_comments : Z) (min_stddev : Q)
    (db : database) : list Controversial.t :=
  sql_order_by
    (fun a b => not_after (cmp_desc_root (Controversial.controversy_score a)
                                         (Controversial.controversy_score b)))
    (map controversial_row
       (filter
          (fun r =>
             match CommentStats.stddev_comment_length (snd (fst (fst r))) with
             | Some s => root_ge s min_stddev
             | None => false
             end)
          (sql_inner_join
             (fun r u => Post.user_id (fst (fst r)) =? User.user_id u)
             (sql_left_join
                (fun r rd => Post.post_id (fst r) =? ReplyDepth.post_id rd)
                (sql_inner_join
                   (fun p cs => Post.post_id p =? CommentStats.post_id cs)
                   (posts db) (comment_stats db min_comments))
                (reply_depth db))
             (users db)))).

(** The lengths of the comment texts of one post. *)
Definition comment_lengths (db : database) (pid : Z) : list Z :=
  map text_length (comments_on db pid).

(** Post 1 has the comments "a", "abc" and the reply "abcde". *)
Definition debate_db : database :=
  mkdb [alice; bob]
       [Post.mk 1 1 (Some "hello"%string) None None None]
       [Comment.mk 1 1 2 None "a" None;
        Comment.mk 2 1 1 None "abc" None;
        Comment.mk 3 1 2 (Some 2) "abcde" None]
       [] [].

(** ** [NetworkAnalyzer] *)

(** A pandas frame: its column labels and its rows. *)
Record frame (R : Type) := Frame {
  columns : list string;
  records : list R
}.
Arguments Frame {R} columns records.
Arguments columns {R} f.
Arguments records {R} f.

(** [pd.DataFrame([dict(row) for row in result])]: the labels come from the
    rows, so a frame built from no row has no column. *)
Definition DataFrame {R} (labels : list string) (rows : list R) : frame R :=
  match rows with
  | [] => Frame [] []
  | _ :: _ => Frame labels rows
  end.

Module NetworkEdge.
Record t := mk {
  follower_username : string;
  followee_username : string;
  follow_time : option timestamp
}.
End NetworkEdge.

Definition network_labels : list string :=
  ["follower_username"; "followee_username"; "follow_time"]%string.

(** [FROM follows f JOIN users u1 ON f.follower_id = u1.user_id
    JOIN users u2 ON f.followee_id = u2.user_id].  The statement has no
    [ORDER BY]: the frame holds these rows in some order, of which this is
    one. *)
Definition get_follower_network (db : database) : frame NetworkEdge.t :=
  DataFrame network_labels
    (map (fun r : Follow.t * User.t * User.t =>
            NetworkEdge.mk (User.username (snd (fst r)))
                           (User.username (snd r))
                           (Follow.follow_time (fst (fst r))))
       (sql_inner_join
          (fun r u2 => Follow.followee_id (fst r) =? User.user_id u2)
          (sql_inner_join
             (fun f u1 => Follow.follower_id f =? User.user_id u1)
             (follows db) (users db))
          (users db))).

(** The attributes of a [NetworkAnalyzer]: what [__init__] sets and the
    methods the class defines. *)
Definition NetworkAnalyzer_attributes : list string :=
  ["session"; "visualizer"; "get_follower_network";
   "analyze_and_visualize_network"]%string.

(** [self.name]: [AttributeError] when the object has no attribute of that
    name. *)
Definition getattr (attributes : list string) (name : string) : result unit :=
  if existsb (String.eqb name) attributes then Ok tt
  else Raise AttributeError.

Section NetworkAnalysis.
(** The statements of [analyze_and_visualize_network] after its first one:
    the network query, the plot, the two prints and the density lines 43 to
    46.  No call gets as far as running them, and they are given no meaning
    here. *)
Variable remaining_statements : database -> result unit.

(** [analyze_and_visualize_network]: its first statement (line 28) is
    [ghost_followers = self.identify_ghost_followers()]. *)
Definition analyze_and_visualize_network (db : database) : result unit :=
  bind (getattr NetworkAnalyzer_attributes "identify_ghost_followers")
    (fun _ => remaining_statements db).
End NetworkAnalysis.

(** Integrity constraints of [users] and [follows]. *)
Definition users_pk (db : database) : Prop :=
  NoDup (map User.user_id (users db)).

Definition follows_fk (db : database) : Prop :=
  forall f, In f (follows db) ->
    (exists u, In u (users db) /\ User.user_id u = Follow.follower_id f) /\
    (exists u, In u (users db) /\ User.user_id u = Follow.followee_id f).

(** The username of the user with id [uid]. *)
Definition name_of (db : database) (uid : Z) : string :=
  match find (fun u => uid =? User.user_id u) (users db) with
  | Some u => User.username u
  | None => EmptyString
  end.

(** Four users and six follow edges. *)
Definition square_db : database :=
  mkdb [alice; bob; carol; dave] [] [] []
       [Follow.mk 2 1 None; Follow.mk 3 1 None; Follow.mk 4 1 None;
        Follow.mk 1 2 None; Follow.mk 3 2 None; Follow.mk 1 3 None].

(** ** [ContentAnalyzer.get_post_activity_timeline] *)

Module Activity.
Record t := mk {
  activity_type : string;
  timestamp : option Z;
  username : string;
  content : option string;
  like_count : option Z
}.
End Activity.

(** [DATE(t)]: the day of a timestamp. *)
Definition sql_date (t : option timestamp) : option Z :=
  option_map (fun x => x / 86400000000) t.

Definition option_Z_eqb (a b : option Z) : bool :=
  match a, b with
  | Some x, Some y => x =? y
  | None, None => true
  | _, _ => false
  end.

(** Comparison for an ascending sort key, NULL last. *)
Definition asc_before (a b : option Z) : bool :=
  match a, b with
  | _, None => true
  | None, Some _ => false
  | Some x, Some y => x <=? y
  end.

Definition timeline_labels : list string :=
  ["activity_type"; "timestamp"; "username"; "content"; "like_count"]%string.

Definition get_post_activity_timeline (post_id : Z) (db : database)
    : frame Activity.t :=
  let comment_events :=
    map (fun r : Comment.t * User.t =>
           Activity.mk "comment" (Comment.comment_time (fst r))
             (User.username (snd r))
             (Some (Comment.comment_text (fst r))) None)
        (sql_inner_join (fun c u => Comment.user_id c =? User.user_id u)
           (filter (fun c => Comment.post_id c =? post_id) (comments db))
           (users db)) in
  let liked :=
    sql_inner_join (fun l u => Like.user_id l =? User.user_id u)
      (filter (fun l => sql_eq (Like.post_id l) (Some post_id)) (likes db))
      (users db) in
  let like_events :=
    map (fun r : Like.t * User.t =>
           Activity.mk "like" (Like.like_time (fst r))
             (User.username (snd r)) None
             (Some (count_rows
                      (filter
                         (fun r' => option_Z_eqb
                                      (sql_date (Like.like_time (fst r')))
                                      (sql_date (Like.like_time (fst r))))
                         liked))))
        liked in
  DataFrame timeline_labels
    (sql_order_by
       (fun a b => asc_before (Activity.timestamp a) (Activity.timestamp b))
       (comment_events ++ like_events)).


(** ** Further snapshots *)

(** The comments whose parent comment belongs to post [pid]. *)
Definition replies_under (db : database) (pid : Z) : list Comment.t :=
  filter
    (fun c2 =>
       existsb (fun c1 => (Comment.post_id c1 =? pid)
                          && sql_eq (Some (Comment.comment_id c1))
                                    (Comment.parent_comment_id c2))
               (comments db))
    (comments db).

(** Every like is authored by a user of the users table. *)
Definition like_author_fk (db : database) : Prop :=
  forall l, In l (likes db) ->
    exists u, In u (users db) /\ User.user_id u = Like.user_id l.

Definition posts_pk (db : database) : Prop :=
  NoDup (map Post.post_id (posts db)).

(** Every post is authored by a user of the users table. *)
Definition post_author_fk (db : database) : Prop :=
  forall p, In p (posts db) ->
    exists u, In u (users db) /\ User.user_id u = Post.user_id p.

(** The posts dated at or after [w]. *)
Definition posts_since (db : database) (w : timestamp) : list Post.t :=
  filter (fun p => sql_ge (Post.post_time p) (Some w)) (posts db).

(** * Properties *)

(** ** Relational operators *)

Section Operators.
Context {A B : Type}.

Lemma in_inner_join (on : A -> B -> bool) l r a b :
  In (a, b) (sql_inner_join on l r) <-> In a l /\ In b r /\ on a b = true.
Proof.
  unfold sql_inner_join. rewrite in_flat_map. split.
  - intros (a' & Ha & Hin). apply in_map_iff in Hin as (b' & Heq & Hb).
    inversion Heq; subst. apply filter_In in Hb. tauto.
  - intros (Ha & Hb & Hon). exists a. split; [assumption|].
    apply in_map. apply filter_In. tauto.
Qed.

Lemma in_null_extend_Some (m : list B) b :
  In (Some b) (null_extend m) <-> In b m.
Proof.
  destruct m as [|b0 m]; simpl.
  - split; [intros [H|[]]; discriminate | tauto].
  - split.
    + intros [H|H]; [inversion H; auto|].
      apply in_map_iff in H as (b' & Heq & Hb). inversion Heq; subst; auto.
    + intros [H|H]; [left; congruence | right; now apply in_map].
Qed.

Lemma null_extend_inhabited (m : list B) : exists o, In o (null_extend m).
Proof.
  destruct m as [|b0 m]; simpl; eauto.
Qed.

Lemma in_left_join (on : A -> B -> bool) l r a o :
  In (a, o) (sql_left_join on l r) <->
  In a l /\ In o (null_extend (filter (on a) r)).
Proof.
  unfold sql_left_join. rewrite in_flat_map. split.
  - intros (a' & Ha & Hin). apply in_map_iff in Hin as (o' & Heq & Ho).
    inversion Heq; subst. tauto.
  - intros (Ha & Ho). exists a. split; [assumption|]. now apply in_map.
Qed.

Lemma left_join_nil (on : A -> B -> bool) r : sql_left_join on [] r = [].
Proof. reflexivity. Qed.

Lemma insert_row_perm (before : A -> A -> bool) x l :
  Permutation (x :: l) (insert_row before x l).
Proof.
  induction l as [|y t IH]; simpl.
  - apply Permutation_refl.
  - destruct (before x y).
    + apply Permutation_refl.
    + eapply perm_trans; [apply perm_swap|]. now apply perm_skip.
Qed.

Lemma order_by_perm (before : A -> A -> bool) l :
  Permutation l (sql_order_by before l).
Proof.
  induction l as [|x t IH]; simpl.
  - apply perm_nil.
  - eapply perm_trans; [|apply insert_row_perm]. now apply perm_skip.
Qed.

Lemma in_order_by (before : A -> A -> bool) l x :
  In x (sql_order_by before l) <-> In x l.
Proof.
  split; apply Permutation_in;
    [apply Permutation_sym|]; apply order_by_perm.
Qed.

Lemma in_group_by (eq_dec : forall x y : B, {x = y} + {x <> y})
    (key : A -> B) rows k g :
  In (k, g) (sql_group_by eq_dec key rows) <->
  In k (map key rows) /\
  g = filter (fun r => eqb_of eq_dec (key r) k) rows.
Proof.
  unfold sql_group_by. rewrite in_map_iff. split.
  - intros (k' & Heq & Hk). inversion Heq; subst.
    apply nodup_In in Hk. tauto.
  - intros (Hk & ->). exists k. split; [reflexivity|]. now apply nodup_In.
Qed.

Lemma eqb_of_true (eq_dec : forall x y : B, {x = y} + {x <> y}) x y :
  eqb_of eq_dec x y = true <-> x = y.
Proof.
  unfold eqb_of. destruct (eq_dec x y); split; congruence.
Qed.

End Operators.

(** An injective column determines the row. *)
Lemma pk_injective {A K} (key : A -> K) l x y :
  NoDup (map key l) -> In x l -> In y l -> key x = key y -> x = y.
Proof.
  induction l as [|a l IH]; simpl; [tauto|].
  intros Hnd Hx Hy Heq. inversion Hnd as [|? ? Hni Hnd']; subst.
  destruct Hx as [->|Hx], Hy as [->|Hy]; auto.
  - exfalso. apply Hni. rewrite Heq. now apply in_map.
  - exfalso. apply Hni. rewrite <- Heq. now apply in_map.
Qed.

Section Ordering.
Context {A : Type}.
Variable before : A -> A -> bool.
Hypothesis before_total : forall x y, before x y = false -> before y x = true.
Hypothesis before_trans :
  forall x y z, before x y = true -> before y z = true -> before x z = true.

Let precedes (x y : A) : Prop := before x y = true.

Lemma insert_row_sorted x l :
  StronglySorted precedes l -> StronglySorted precedes (insert_row before x l).
Proof.
  induction 1 as [|y t Hs IH Hall]; simpl.
  - constructor; constructor.
  - destruct (before x y) eqn:E.
    + constructor; [now constructor|].
      constructor; [assumption|].
      eapply Forall_impl; [|exact Hall].
      intros z Hz. now apply before_trans with (y := y).
    + constructor; [assumption|].
      apply Forall_forall. intros z Hz.
      apply (Permutation_in _ (Permutation_sym (insert_row_perm before x t)))
        in Hz.
      destruct Hz as [<-|Hz].
      * now apply before_total.
      * rewrite Forall_forall in Hall. now apply Hall.
Qed.

Lemma order_by_sorted l : StronglySorted precedes (sql_order_by before l).
Proof.
  induction l as [|x t IH]; simpl.
  - constructor.
  - now apply insert_row_sorted.
Qed.
End Ordering.

Ltac concrete_nodup :=
  repeat (constructor; [simpl; intuition discriminate|]); constructor.

(** ** Thread depth *)

(** C1.  [analyze_thread_depth] assigns no depth to any comment.  Its
    select list ends with a [GROUP_CONCAT] call that carries a [SEPARATOR]
    clause, which the engine does not parse: whatever rows the statement
    describes, the call raises [ProgrammingError] on the snapshot
    [thread_db], whose post 1 has a thread three comments deep, and on
    every other snapshot, for every [min_depth]. *)
Theorem thread_depth_statement_rejected
    (selected_rows : database -> Z -> list ThreadDepth.t) :
  filter (fun a => negb (postgres_parses a)) thread_depth_aggregates
  = [Aggregate "GROUP_CONCAT" true true (Some ", "%string)] /\
  analyze_thread_depth selected_rows thread_db 2 = Raise ProgrammingError /\
  forall db min_depth,
    analyze_thread_depth selected_rows db min_depth = Raise ProgrammingError.
Proof.
  split; [reflexivity|]. split; [reflexivity|]. intros db min_depth.
  reflexivity.
Qed.

(** C6.  No ordered report comes out of [analyze_thread_depth]: on
    [tie_db], whose posts 1 and 2 tie on depth and on comment count, the
    call raises [ProgrammingError] whatever [min_depth] is, and returns no
    row list for any. *)
Theorem thread_depth_report_not_produced
    (selected_rows : database -> Z -> list ThreadDepth.t) (min_depth : Z) :
  analyze_thread_depth selected_rows tie_db min_depth
  = Raise ProgrammingError /\
  forall out, analyze_thread_depth selected_rows tie_db min_depth <> Ok out.
Proof.
  split; [reflexivity|]. intros out. discriminate.
Qed.

(** ** Counting distinct values over joined rows *)

Lemma in_non_null {A} (l : list (option A)) x :
  In x (non_null l) <-> In (Some x) l.
Proof.
  induction l as [|[y|] l IH]; simpl.
  - tauto.
  - rewrite IH. split; intros [H|H]; auto; left; congruence.
  - rewrite IH. split; [auto|]. intros [H|H]; [discriminate|auto].
Qed.

(** [COUNT(DISTINCT e)] depends only on the set of non-NULL values. *)
Lemma count_distinct_ext l1 l2 :
  (forall z, In (Some z) l1 <-> In (Some z) l2) ->
  count_distinct l1 = count_distinct l2.
Proof.
  intros H. unfold count_distinct. f_equal.
  apply Permutation_length. apply NoDup_Permutation; try apply NoDup_nodup.
  intros z. rewrite !nodup_In, !in_non_null. apply H.
Qed.

Lemma count_distinct_nonneg l : 0 <= count_distinct l.
Proof. unfold count_distinct. lia. Qed.

Lemma count_distinct_zero l :
  count_distinct l = 0 <-> forall z, ~ In (Some z) l.
Proof.
  unfold count_distinct. split.
  - intros H z Hz. apply in_non_null in Hz.
    apply (nodup_In Z.eq_dec) in Hz.
    destruct (nodup Z.eq_dec (non_null l)); [destruct Hz|simpl in H; lia].
  - intros H. destruct (nodup Z.eq_dec (non_null l)) as [|z t] eqn:E;
      [reflexivity|].
    exfalso. apply (H z). apply in_non_null. apply (nodup_In Z.eq_dec).
    rewrite E. now left.
Qed.

Lemma filter_perm_length {A} (f : A -> bool) l l' :
  Permutation l l' -> length (filter f l) = length (filter f l').
Proof.
  induction 1 as [|x l l' _ IH|x y l|l l' l'' _ IH1 _ IH2]; simpl.
  - reflexivity.
  - destruct (f x); simpl; congruence.
  - destruct (f x), (f y); reflexivity.
  - congruence.
Qed.

Lemma filter_map_length {A B} (f : A -> B) (p : B -> bool) l :
  length (filter p (map f l)) = length (filter (fun a => p (f a)) l).
Proof.
  induction l as [|a l IH]; simpl; [reflexivity|].
  destruct (p (f a)); simpl; congruence.
Qed.

(** ** Rounding to two decimals *)

Lemma round_half_away_close (y : Q) :
  (inject_Z (round_half_away y) - y <= 1 # 2)%Q /\
  (y - inject_Z (round_half_away y) <= 1 # 2)%Q.
Proof.
  unfold round_half_away. destruct (Qle_bool 0 y).
  - pose proof (Qfloor_le (y + (1 # 2))) as Hlo.
    pose proof (Qlt_floor (y + (1 # 2))) as Hhi.
    rewrite inject_Z_plus in Hhi.
    change (inject_Z 1) with 1%Q in Hhi. split; lra.
  - pose proof (Qfloor_le (- y + (1 # 2))) as Hlo.
    pose proof (Qlt_floor (- y + (1 # 2))) as Hhi.
    rewrite inject_Z_plus in Hhi. rewrite inject_Z_opp.
    change (inject_Z 1) with 1%Q in Hhi. split; lra.
Qed.

(** [ROUND(x, 2)] is within half a hundredth of [x]. *)
Lemma round2_close (x : Q) : (Qabs (round2 x - x) <= 1 # 200)%Q.
Proof.
  unfold round2. rewrite Qred_correct, Qmake_Qdiv.
  destruct (round_half_away_close (x * 100)) as [H1 H2].
  change (inject_Z (Z.pos 100)) with 100%Q.
  set (z := inject_Z (round_half_away (x * 100))) in *.
  apply Qabs_Qle_condition.
  change (z / 100)%Q with (z * (1 # 100))%Q. split; lra.
Qed.

(** ** Post engagement *)

Section PostEngagementFacts.
Variable db : database.
Variable start_date : timestamp.

Lemma in_post_join p ol oc u fo :
  In (p, ol, oc, u, fo) (post_join db start_date) <->
  In p (posts db) /\
  In ol (null_extend (likes_on db (Post.post_id p))) /\
  In oc (null_extend (comments_on db (Post.post_id p))) /\
  In u (users db) /\ Post.user_id p = User.user_id u /\
  In fo (null_extend (followers_of db (Post.user_id p))) /\
  sql_ge (Post.post_time p) (Some start_date) = true.
Proof.
  unfold post_join, likes_on, comments_on, followers_of.
  rewrite filter_In, in_left_join, in_inner_join, !in_left_join.
  unfold pj_post. simpl. rewrite Z.eqb_eq. tauto.
Qed.

(** The three counts of a [post_stats] row are those of the post and of
    its author. *)
Lemma post_stats_counts s :
  In s (post_stats db start_date) ->
  PostStats.like_count s = distinct_likers db (PostStats.post_id s) /\
  PostStats.comment_count s = distinct_comments db (PostStats.post_id s) /\
  PostStats.follower_count s = distinct_followers db (PostStats.author_id s).
Proof.
  unfold post_stats. rewrite in_map_iff.
  intros ([key g] & <- & Hg). apply in_group_by in Hg as [Hkey ->].
  apply in_map_iff in Hkey as (r0 & Hkey0 & Hin0).
  destruct r0 as [[[[p0 ol0] oc0] u0] fo0].
  apply in_post_join in Hin0 as (Hp0 & Hol0 & Hoc0 & Hu0 & Hpu0 & Hof0 & Ht0).
  set (grp := filter _ (post_join db start_date)).
  assert (Hgrp : forall p ol oc u fo,
            In (p, ol, oc, u, fo) grp <->
            In (p, ol, oc, u, fo) (post_join db start_date) /\
            post_key_of (p, ol, oc, u, fo) = key).
  { intros. unfold grp. now rewrite filter_In, eqb_of_true. }
  unfold post_key_of, pj_post, pj_user in Hkey0, Hgrp. simpl in Hkey0, Hgrp.
  subst key. unfold post_stats_row. cbn [fst snd PostStats.like_count
    PostStats.comment_count PostStats.follower_count PostStats.post_id
    PostStats.author_id].
  unfold distinct_likers, distinct_comments, distinct_followers.
  repeat split; apply count_distinct_ext; intros z;
    rewrite !in_map_iff; split.
  - intros ([[[[p ol] oc] u] fo] & Hz & Hr). unfold pj_like in Hz.
    simpl in Hz. destruct ol as [l|]; [|discriminate].
    apply Hgrp in Hr as [Hr Hk]. apply in_post_join in Hr as (_ & Hl & _).
    rewrite in_null_extend_Some in Hl. exists l. split; [assumption|].
    congruence.
  - intros (l & Hz & Hl). exists (p0, Some l, oc0, u0, fo0).
    split; [unfold pj_like; simpl; congruence|].
    apply Hgrp. split; [|reflexivity]. apply in_post_join.
    repeat split; auto. now apply in_null_extend_Some.
  - intros ([[[[p ol] oc] u] fo] & Hz & Hr). unfold pj_comment in Hz.
    simpl in Hz. destruct oc as [c|]; [|discriminate].
    apply Hgrp in Hr as [Hr Hk].
    apply in_post_join in Hr as (_ & _ & Hc & _).
    rewrite in_null_extend_Some in Hc. exists c. split; [assumption|].
    congruence.
  - intros (c & Hz & Hc). exists (p0, ol0, Some c, u0, fo0).
    split; [unfold pj_comment; simpl; congruence|].
    apply Hgrp. split; [|reflexivity]. apply in_post_join.
    repeat split; auto. now apply in_null_extend_Some.
  - intros ([[[[p ol] oc] u] fo] & Hz & Hr). unfold pj_follow in Hz.
    simpl in Hz. destruct fo as [f|]; [|discriminate].
    apply Hgrp in Hr as [Hr Hk].
    apply in_post_join in Hr as (_ & _ & _ & _ & _ & Hf & _).
    rewrite in_null_extend_Some in Hf. exists f. split; [assumption|].
    congruence.
  - intros (f & Hz & Hf). exists (p0, ol0, oc0, u0, Some f).
    split; [unfold pj_follow; simpl; congruence|].
    apply Hgrp. split; [|reflexivity]. apply in_post_join.
    repeat split; auto. now apply in_null_extend_Some.
Qed.
End PostEngagementFacts.

Lemma in_get_post_engagement now days db r :
  In r (get_post_engagement now days db) <->
  exists s, In s (post_stats db (now - timedelta_days days)) /\
    r = post_engagement_row (post_stats db (now - timedelta_days days)) s.
Proof.
  unfold get_post_engagement. cbv zeta. rewrite in_order_by, in_map_iff.
  split; intros (s & H1 & H2); exists s; split; auto.
Qed.

(** C2, as the code has it.  For every row of [get_post_engagement] the
    counts are those of the snapshot (distinct likers and distinct comments
    of the post, distinct followers of the author); [engagement_rate] is
    NULL exactly when the follower count is 0 (no error, no 0 in its place),
    and otherwise it is [(likes + comments) * 100 / followers] rounded to two
    decimals, hence within 0.005 of the exact quotient. *)
Theorem engagement_rate_rounded_or_null
    (now : timestamp) (days : Z) (db : database) (r : PostEngagement.t) :
  In r (get_post_engagement now days db) ->
  let exact :=
    (inject_Z ((PostEngagement.like_count r + PostEngagement.comment_count r)
               * 100)
     / inject_Z (PostEngagement.follower_count r))%Q in
  PostEngagement.like_count r = distinct_likers db (PostEngagement.post_id r) /\
  PostEngagement.comment_count r =
    distinct_comments db (PostEngagement.post_id r) /\
  PostEngagement.follower_count r =
    distinct_followers db (PostEngagement.author_id r) /\
  (PostEngagement.engagement_rate r = None <->
   PostEngagement.follower_count r = 0) /\
  (PostEngagement.follower_count r <> 0 ->
   PostEngagement.engagement_rate r = Some (round2 exact) /\
   (Qabs (round2 exact - exact) <= 1 # 200)%Q).
Proof.
  intros Hr. apply in_get_post_engagement in Hr as (s & Hs & ->).
  destruct (post_stats_counts _ _ s Hs) as (Hl & Hc & Hf).
  cbn [post_engagement_row PostEngagement.like_count
       PostEngagement.comment_count PostEngagement.follower_count
       PostEngagement.post_id PostEngagement.author_id
       PostEngagement.engagement_rate].
  repeat split; auto.
  - unfold engagement_rate_of, nullif.
    destruct (PostStats.follower_count s =? 0) eqn:E; simpl;
      [now apply Z.eqb_eq in E|discriminate].
  - intros E. unfold engagement_rate_of, nullif.
    apply Z.eqb_eq in E. now rewrite E.
  - unfold engagement_rate_of, nullif.
    apply Z.eqb_neq in H. now rewrite H.
  - apply round2_close.
Qed.

Lemma engagement_rate_rounded_or_null_witness :
  exists r, In r (get_post_engagement now0 30 third_db) /\
    PostEngagement.follower_count r = 3 /\
    PostEngagement.engagement_rate r = Some (3333 # 100)%Q.
Proof.
  eexists. split; [left; reflexivity|]. split; [reflexivity|].
  refine (proj1 (proj2 (proj2 (proj2 (proj2
    (engagement_rate_rounded_or_null now0 30 third_db _
       (or_introl eq_refl))))) _)).
  discriminate.
Defined.

(** C2, as stated, fails: with one like, no comment and three followers the
    reported rate is 33.33, not 100/3. *)
Lemma engagement_rate_not_exact_quotient :
  exists r, get_post_engagement now0 30 third_db = [r] /\
    PostEngagement.like_count r = 1 /\
    PostEngagement.comment_count r = 0 /\
    PostEngagement.follower_count r = 3 /\
    PostEngagement.engagement_rate r = Some (3333 # 100)%Q /\
    ~ ((3333 # 100) == inject_Z ((1 + 0) * 100) / inject_Z 3)%Q.
Proof.
  eexists. split; [reflexivity|]. repeat split. discriminate.
Qed.

(** C4, as the code has it.  [engagement_rank] is [RANK()], the rank with
    gaps: one more than the number of returned posts whose combined count
    (distinct likers + comments) is strictly greater.  So posts with equal
    combined counts share a rank, a post with a greater combined count has a
    strictly smaller rank, and the rank after a tie skips the tied rows. *)
Theorem engagement_rank_counts_posts_above
    (now : timestamp) (days : Z) (db : database) :
  let out := get_post_engagement now days db in
  (forall r, In r out ->
     PostEngagement.engagement_rank r =
     1 + count_rows (filter (fun r' => combined r <? combined r') out)) /\
  (forall r1 r2, In r1 out -> In r2 out -> combined r1 = combined r2 ->
     PostEngagement.engagement_rank r1 = PostEngagement.engagement_rank r2) /\
  (forall r1 r2, In r1 out -> In r2 out -> combined r2 < combined r1 ->
     PostEngagement.engagement_rank r1 < PostEngagement.engagement_rank r2).
Proof.
  intros out.
  assert (Hrank : forall r, In r out ->
     PostEngagement.engagement_rank r =
     1 + count_rows (filter (fun r' => combined r <? combined r') out)).
  { intros r Hr. apply in_get_post_engagement in Hr as (s & Hs & ->).
    unfold out, get_post_engagement. cbv zeta.
    set (stats := post_stats db (now - timedelta_days days)).
    cbn [post_engagement_row PostEngagement.engagement_rank].
    unfold sql_rank_desc, count_rows. do 2 f_equal.
    rewrite <- (filter_perm_length _ _ _ (order_by_perm _ _)).
    rewrite filter_map_length. reflexivity. }
  split; [exact Hrank|]. split.
  - intros r1 r2 H1 H2 Heq. rewrite (Hrank r1 H1), (Hrank r2 H2).
    now rewrite Heq.
  - intros r1 r2 H1 H2 Hlt. rewrite (Hrank r1 H1), (Hrank r2 H2).
    unfold count_rows.
    assert (Hlen : forall l,
      (length (filter (fun r' => (combined r1 <? combined r')%Z) l)
       <= length (filter (fun r' => (combined r2 <? combined r')%Z) l))%nat).
    { induction l as [|x l IH]; simpl; [lia|].
      destruct (combined r1 <? combined x) eqn:E1.
      - apply Z.ltb_lt in E1.
        assert (E2 : (combined r2 <? combined x) = true)
          by (apply Z.ltb_lt; lia).
        rewrite E2. simpl. lia.
      - destruct (combined r2 <? combined x); simpl; lia. }
    assert (Hstrict : forall l, In r1 l ->
      (length (filter (fun r' => (combined r1 <? combined r')%Z) l)
       < length (filter (fun r' => (combined r2 <? combined r')%Z) l))%nat).
    { induction l as [|x l IH]; simpl; [tauto|].
      intros [->|Hin].
      - rewrite Z.ltb_irrefl.
        assert (E2 : (combined r2 <? combined r1) = true)
          by (apply Z.ltb_lt; lia).
        rewrite E2. simpl. specialize (Hlen l). lia.
      - specialize (IH Hin).
        destruct (combined r1 <? combined x) eqn:E1.
        + apply Z.ltb_lt in E1.
          assert (E2 : (combined r2 <? combined x) = true)
            by (apply Z.ltb_lt; lia).
          rewrite E2. simpl. lia.
        + destruct (combined r2 <? combined x); simpl; lia. }
    specialize (Hstrict out H1). lia.
Qed.

(** C4, as stated, fails: with combined counts 1, 1 and 0 the ranks are
    1, 1 and 3; a dense rank would give the last post rank 2. *)
Lemma engagement_rank_not_dense :
  let out := get_post_engagement now0 30 rank_db in
  map combined out = [1; 1; 0] /\
  map PostEngagement.engagement_rank out = [1; 1; 3] /\
  map (dense_rank_desc out) out = [1; 1; 2].
Proof.
  repeat split.
Qed.

(** ** User engagement summary *)

Lemma filter_filter_implied {A} (f g : A -> bool) l :
  (forall x, f x = true -> g x = true) ->
  filter f (filter g l) = filter f l.
Proof.
  intros H. induction l as [|x l IH]; simpl; [reflexivity|].
  destruct (g x) eqn:G; simpl.
  - now rewrite IH.
  - destruct (f x) eqn:F; [|assumption].
    apply H in F. congruence.
Qed.

Lemma left_join_filter_implied {A B} (on : A -> B -> bool) (g : B -> bool)
    l r :
  (forall a b, on a b = true -> g b = true) ->
  sql_left_join on l (filter g r) = sql_left_join on l r.
Proof.
  intros H. unfold sql_left_join. apply flat_map_ext. intros a.
  rewrite filter_filter_implied; [reflexivity|]. apply H.
Qed.

Section UserEngagementFacts.
Variable db : database.

Lemma in_user_join u op ol oc f fl :
  In (u, op, ol, oc, f, fl) (user_join db) <->
  In u (users db) /\
  In op (null_extend (posts_of db (User.user_id u))) /\
  In ol (null_extend
           (filter (fun l => sql_eq (option_map Post.post_id op)
                                    (Like.post_id l)) (likes db))) /\
  In oc (null_extend
           (filter (fun c => sql_eq (option_map Post.post_id op)
                                    (Some (Comment.post_id c)))
                   (comments db))) /\
  In f (null_extend (followers_of db (User.user_id u))) /\
  In fl (null_extend
           (filter (fun e => User.user_id u =? Follow.follower_id e)
                   (follows db))).
Proof.
  unfold user_join, posts_of, followers_of.
  rewrite !in_left_join. simpl. tauto.
Qed.

Lemma in_likes_on_posts_of uid l :
  In l (likes_on_posts_of db uid) <->
  In l (likes db) /\
  exists p, In p (posts db) /\ Post.user_id p = uid /\
    Like.post_id l = Some (Post.post_id p).
Proof.
  unfold likes_on_posts_of, posts_of. rewrite filter_In, existsb_exists.
  split; intros [Hl (p & Hp & H)]; (split; [assumption|]); exists p.
  - apply filter_In in Hp as [Hp Hu]. apply Z.eqb_eq in Hu.
    destruct (Like.post_id l) as [pid|]; [|discriminate].
    simpl in H. apply Z.eqb_eq in H. subst. auto.
  - destruct H as [Hu Hpid]. split.
    + apply filter_In. split; [assumption|]. now apply Z.eqb_eq.
    + rewrite Hpid. simpl. apply Z.eqb_refl.
Qed.

Lemma in_comments_on_posts_of uid c :
  In c (comments_on_posts_of db uid) <->
  In c (comments db) /\
  exists p, In p (posts db) /\ Post.user_id p = uid /\
    Comment.post_id c = Post.post_id p.
Proof.
  unfold comments_on_posts_of, posts_of. rewrite filter_In, existsb_exists.
  split; intros [Hc (p & Hp & H)]; (split; [assumption|]); exists p.
  - apply filter_In in Hp as [Hp Hu]. apply Z.eqb_eq in Hu, H. auto.
  - destruct H as [Hu Hpid]. split.
    + apply filter_In. split; [assumption|]. now apply Z.eqb_eq.
    + now apply Z.eqb_eq.
Qed.

Lemma user_summary_received r :
  In r (get_user_engagement_summary db) ->
  UserEngagement.likes_received r =
    count_distinct (map (fun l => Some (Like.like_id l))
                        (likes_on_posts_of db (UserEngagement.user_id r))) /\
  UserEngagement.comments_received r =
    count_distinct (map (fun c => Some (Comment.comment_id c))
                        (comments_on_posts_of db (UserEngagement.user_id r))).
Proof.
  unfold get_user_engagement_summary. rewrite in_order_by, in_map_iff.
  intros ([key g] & <- & Hg). apply in_group_by in Hg as [Hkey ->].
  apply in_map_iff in Hkey as (r0 & Hkey0 & Hin0).
  destruct r0 as [[[[[u0 op0] ol0] oc0] f0] fl0].
  apply in_user_join in Hin0 as (Hu0 & Hop0 & Hol0 & Hoc0 & Hf0 & Hfl0).
  set (grp := filter _ (user_join db)).
  assert (Hgrp : forall u op ol oc f fl,
            In (u, op, ol, oc, f, fl) grp <->
            In (u, op, ol, oc, f, fl) (user_join db) /\
            user_key_of u = key).
  { intros. unfold grp. now rewrite filter_In, eqb_of_true. }
  unfold uj_user in Hkey0. simpl in Hkey0. subst key.
  unfold user_engagement_row.
  cbn [fst snd UserEngagement.likes_received
       UserEngagement.comments_received UserEngagement.user_id].
  split; apply count_distinct_ext; intros z; rewrite !in_map_iff; split.
  - intros ([[[[[u op] ol] oc] f] fl] & Hz & Hr). unfold uj_like in Hz.
    simpl in Hz. destruct ol as [l|]; [|discriminate].
    apply Hgrp in Hr as [Hr Hk].
    apply in_user_join in Hr as (_ & Hop & Hl & _).
    rewrite in_null_extend_Some in Hl. apply filter_In in Hl as [Hl Hon].
    destruct op as [p|]; [|discriminate].
    rewrite in_null_extend_Some in Hop. apply filter_In in Hop as [Hp Hpu].
    apply Z.eqb_eq in Hpu. exists l. split; [assumption|].
    apply in_likes_on_posts_of. split; [assumption|]. exists p.
    split; [assumption|]. split.
    + unfold user_key_of in *. simpl. congruence.
    + simpl in Hon. destruct (Like.post_id l) as [pid|]; [|discriminate].
      simpl in Hon. apply Z.eqb_eq in Hon. now subst.
  - intros (l & Hz & Hl).
    apply in_likes_on_posts_of in Hl as (Hl & p & Hp & Hpu & Hpid).
    destruct (null_extend_inhabited
                (filter (fun c => sql_eq (option_map Post.post_id (Some p))
                                         (Some (Comment.post_id c)))
                        (comments db))) as (oc & Hoc).
    exists (u0, Some p, Some l, oc, f0, fl0).
    split; [unfold uj_like; simpl; congruence|].
    apply Hgrp. split; [|reflexivity]. apply in_user_join.
    repeat split; auto.
    + apply in_null_extend_Some. apply filter_In. split; [assumption|].
      apply Z.eqb_eq. now rewrite Hpu.
    + apply in_null_extend_Some. apply filter_In. split; [assumption|].
      rewrite Hpid. simpl. apply Z.eqb_refl.
  - intros ([[[[[u op] ol] oc] f] fl] & Hz & Hr). unfold uj_comment in Hz.
    simpl in Hz. destruct oc as [c|]; [|discriminate].
    apply Hgrp in Hr as [Hr Hk].
    apply in_user_join in Hr as (_ & Hop & _ & Hc & _).
    rewrite in_null_extend_Some in Hc. apply filter_In in Hc as [Hc Hon].
    destruct op as [p|]; [|discriminate].
    rewrite in_null_extend_Some in Hop. apply filter_In in Hop as [Hp Hpu].
    apply Z.eqb_eq in Hpu. exists c. split; [assumption|].
    apply in_comments_on_posts_of. split; [assumption|]. exists p.
    split; [assumption|]. split.
    + unfold user_key_of in *. simpl. congruence.
    + simpl in Hon. apply Z.eqb_eq in Hon. now subst.
  - intros (c & Hz & Hc).
    apply in_comments_on_posts_of in Hc as (Hc & p & Hp & Hpu & Hpid).
    destruct (null_extend_inhabited
                (filter (fun l => sql_eq (option_map Post.post_id (Some p))
                                         (Like.post_id l))
                        (likes db))) as (ol & Hol).
    exists (u0, Some p, ol, Some c, f0, fl0).
    split; [unfold uj_comment; simpl; congruence|].
    apply Hgrp. split; [|reflexivity]. apply in_user_join.
    repeat split; auto.
    + apply in_null_extend_Some. apply filter_In. split; [assumption|].
      apply Z.eqb_eq. now rewrite Hpu.
    + apply in_null_extend_Some. apply filter_In. split; [assumption|].
      simpl. apply Z.eqb_eq. now rewrite Hpid.
Qed.

Lemma user_join_without_comment_likes :
  user_join (without_comment_likes db) = user_join db.
Proof.
  unfold user_join, without_comment_likes. simpl.
  rewrite left_join_filter_implied; [reflexivity|].
  intros r l Hon. destruct (Like.post_id l); [reflexivity|].
  destruct (option_map Post.post_id (snd r)); discriminate.
Qed.
End UserEngagementFacts.

(** C10.  In every row of [get_user_engagement_summary], [likes_received]
    counts the distinct likes whose post reference is a post of that user,
    and [comments_received] the distinct comments on the user's posts.  A
    like whose target is a comment (no post reference) is counted for nobody:
    dropping all such likes from the snapshot leaves the summary
    unchanged. *)
Theorem likes_received_ignores_comment_likes (db : database) :
  (forall r, In r (get_user_engagement_summary db) ->
     UserEngagement.likes_received r =
       count_distinct (map (fun l => Some (Like.like_id l))
                           (likes_on_posts_of db (UserEngagement.user_id r))) /\
     UserEngagement.comments_received r =
       count_distinct
         (map (fun c => Some (Comment.comment_id c))
              (comments_on_posts_of db (UserEngagement.user_id r)))) /\
  (forall uid l, In l (likes_on_posts_of db uid) ->
     exists p, In p (posts db) /\ Post.user_id p = uid /\
       Like.post_id l = Some (Post.post_id p)) /\
  (forall uid l, Like.post_id l = None -> ~ In l (likes_on_posts_of db uid)) /\
  get_user_engagement_summary (without_comment_likes db) =
  get_user_engagement_summary db.
Proof.
  split; [apply user_summary_received|]. split; [|split].
  - intros uid l Hl. now apply in_likes_on_posts_of in Hl as [_ H].
  - intros uid l Hnone Hl.
    apply in_likes_on_posts_of in Hl as (_ & p & _ & _ & H). congruence.
  - unfold get_user_engagement_summary.
    now rewrite user_join_without_comment_likes.
Qed.

(** ** Top contributors *)

Lemma sql_ge_window t w :
  sql_ge t (Some w) = true <-> exists x, t = Some x /\ w <= x.
Proof.
  destruct t as [x|]; simpl.
  - rewrite Z.leb_le. split; [eauto|]. intros (y & Hy & Hle). congruence.
  - split; [discriminate|]. intros (y & Hy & _). discriminate.
Qed.

Lemma sql_limit_ok {A} n (l out : list A) :
  sql_limit n l = Ok out ->
  0 <= n <= 9223372036854775807 /\ out = firstn (Z.to_nat n) l.
Proof.
  unfold sql_limit. destruct (n <? 0) eqn:E1; [discriminate|].
  destruct (9223372036854775807 <? n) eqn:E2; [discriminate|].
  cbn [orb]. intros H. inversion H.
  apply Z.ltb_ge in E1, E2. split; [lia|reflexivity].
Qed.

Lemma in_limit {A} n (l out : list A) x :
  sql_limit n l = Ok out -> In x out -> In x l.
Proof.
  intros H Hx. apply sql_limit_ok in H as [_ ->].
  rewrite <- (firstn_skipn (Z.to_nat n) l). apply in_or_app. now left.
Qed.

Lemma window_start_ok now days w :
  window_start now days = Ok w ->
  w = now - days * 86400000000 /\
  -2147483648 <= days <= 2147483647 /\
  pg_timestamp_min <= w < pg_timestamp_end.
Proof.
  unfold window_start, timedelta_days.
  destruct (-2147483648 <=? days) eqn:E1; [|discriminate].
  destruct (days <=? 2147483647) eqn:E2; [|discriminate].
  destruct (pg_timestamp_min <=? now - days * 86400000000) eqn:E3;
    [|discriminate].
  destruct (now - days * 86400000000 <? pg_timestamp_end) eqn:E4;
    [|discriminate].
  cbn [andb]. intros H. inversion H; subst w.
  apply Z.leb_le in E1, E2, E3. apply Z.ltb_lt in E4. lia.
Qed.

Lemma window_start_in_range now days :
  -2147483648 <= days <= 2147483647 ->
  pg_timestamp_min <= now - days * 86400000000 < pg_timestamp_end ->
  window_start now days = Ok (now - days * 86400000000).
Proof.
  intros [H1 H2] [H3 H4]. unfold window_start, timedelta_days.
  apply Z.leb_le in H1, H2, H3. apply Z.ltb_lt in H4.
  now rewrite H1, H2, H3, H4.
Qed.

Lemma top_contributors_returns_ok now days limit db out :
  get_top_contributors_returns now days limit db (Ok out) ->
  window_start now days = Ok (now - days * 86400000000) /\
  exists sorted,
    ordered_result score_desc
      (user_activity db (now - days * 86400000000)) sorted /\
    sql_limit limit sorted = Ok out.
Proof.
  unfold get_top_contributors_returns.
  destruct (window_start now days) as [w|e] eqn:E; [|discriminate].
  destruct (window_start_ok _ _ _ E) as [-> _].
  intros (sorted & Hs & Hres). split; [reflexivity|].
  exists sorted. split; [exact Hs|]. now symmetry.
Qed.

Lemma score_order_total (a b : Contributor.t) :
  score_desc a b = false -> score_desc b a = true.
Proof.
  unfold score_desc. rewrite Z.leb_gt, Z.leb_le. lia.
Qed.

Lemma score_order_trans (a b c : Contributor.t) :
  score_desc a b = true -> score_desc b c = true -> score_desc a c = true.
Proof.
  unfold score_desc. rewrite !Z.leb_le. lia.
Qed.

(** The result computed with [sql_order_by] is one the statement can
    have. *)
Lemma get_top_contributors_admissible now days limit db :
  get_top_contributors_returns now days limit db
    (get_top_contributors now days limit db).
Proof.
  unfold get_top_contributors_returns, get_top_contributors.
  destruct (window_start now days) as [w|e]; cbn [bind]; [|reflexivity].
  exists (sql_order_by score_desc (user_activity db w)).
  split; [|reflexivity]. split.
  - apply order_by_perm.
  - apply (order_by_sorted score_desc score_order_total score_order_trans).
Qed.

(** The events of one owner dated [w] or later. *)
Lemma in_recent {A} (owner : A -> Z) (time : A -> option timestamp)
    (w uid : Z) (l : list A) (x : A) :
  In x (filter (fun a => (uid =? owner a) && sql_ge (time a) (Some w)) l) <->
  In x l /\ owner x = uid /\ exists t, time x = Some t /\ w <= t.
Proof.
  rewrite filter_In, andb_true_iff, Z.eqb_eq, sql_ge_window.
  intuition auto.
Qed.

Section ContributorFacts.
Variable db : database.
Variable w : timestamp.

Lemma in_activity_join u op oc ol f f2 :
  In (u, op, oc, ol, f, f2) (activity_join db w) <->
  In u (users db) /\
  In op (null_extend (recent_posts db w (User.user_id u))) /\
  In oc (null_extend (recent_comments db w (User.user_id u))) /\
  In ol (null_extend (recent_likes db w (User.user_id u))) /\
  In f (null_extend (recent_following db w (User.user_id u))) /\
  In f2 (null_extend (recent_followers db w (User.user_id u))).
Proof.
  unfold activity_join, recent_posts, recent_comments, recent_likes,
    recent_following, recent_followers.
  rewrite !in_left_join. simpl. tauto.
Qed.

Lemma case_recent_Some col e z :
  sql_ge (Follow.follow_time e) (Some w) = true ->
  (case_recent w col (Some e) = Some z <-> Some (col e) = Some z).
Proof.
  intros H. simpl. rewrite H. tauto.
Qed.

Lemma user_activity_counts r :
  In r (user_activity db w) ->
  Contributor.post_count r =
    count_distinct (map (fun p => Some (Post.post_id p))
                        (recent_posts db w (Contributor.user_id r))) /\
  Contributor.comment_count r =
    count_distinct (map (fun c => Some (Comment.comment_id c))
                        (recent_comments db w (Contributor.user_id r))) /\
  Contributor.like_count r =
    count_distinct (map (fun l => Some (Like.like_id l))
                        (recent_likes db w (Contributor.user_id r))) /\
  Contributor.new_following r =
    count_distinct (map (fun f => Some (Follow.followee_id f))
                        (recent_following db w (Contributor.user_id r))) /\
  Contributor.new_followers r =
    count_distinct (map (fun f => Some (Follow.follower_id f))
                        (recent_followers db w (Contributor.user_id r))).
Proof.
  unfold user_activity. rewrite in_map_iff.
  intros ([key g] & <- & Hg). apply in_group_by in Hg as [Hkey ->].
  apply in_map_iff in Hkey as (r0 & Hkey0 & Hin0).
  destruct r0 as [[[[[u0 op0] oc0] ol0] f0] g0].
  apply in_activity_join in Hin0 as (Hu0 & Hop0 & Hoc0 & Hol0 & Hf0 & Hg0).
  set (grp := filter _ (activity_join db w)).
  assert (Hgrp : forall u op oc ol f f2,
            In (u, op, oc, ol, f, f2) grp <->
            In (u, op, oc, ol, f, f2) (activity_join db w) /\
            User.user_id u = User.user_id u0 /\
            User.username u = User.username u0).
  { intros. unfold grp. rewrite filter_In, eqb_of_true.
    unfold aj_user, user_key_of in *. simpl in *. subst key.
    split; intros [H1 H2]; (split; [assumption|]).
    - inversion H2. auto.
    - destruct H2 as [-> ->]. reflexivity. }
  unfold aj_user, user_key_of in Hkey0. simpl in Hkey0. subst key.
  unfold user_activity_row.
  cbn [fst snd Contributor.post_count Contributor.comment_count
       Contributor.like_count Contributor.new_following
       Contributor.new_followers Contributor.user_id].
  repeat split; apply count_distinct_ext; intros z;
    rewrite !in_map_iff; split.
  - intros ([[[[[u op] oc] ol] f] f2] & Hz & Hr). unfold aj_post in Hz.
    simpl in Hz. destruct op as [p|]; [|discriminate].
    apply Hgrp in Hr as (Hr & Hid & _).
    apply in_activity_join in Hr as (_ & Hp & _).
    rewrite in_null_extend_Some, Hid in Hp. eauto.
  - intros (p & Hz & Hp). exists (u0, Some p, oc0, ol0, f0, g0).
    split; [exact Hz|]. apply Hgrp. split; [|auto].
    apply in_activity_join. repeat split; auto.
    now apply in_null_extend_Some.
  - intros ([[[[[u op] oc] ol] f] f2] & Hz & Hr). unfold aj_comment in Hz.
    simpl in Hz. destruct oc as [c|]; [|discriminate].
    apply Hgrp in Hr as (Hr & Hid & _).
    apply in_activity_join in Hr as (_ & _ & Hc & _).
    rewrite in_null_extend_Some, Hid in Hc. eauto.
  - intros (c & Hz & Hc). exists (u0, op0, Some c, ol0, f0, g0).
    split; [exact Hz|]. apply Hgrp. split; [|auto].
    apply in_activity_join. repeat split; auto.
    now apply in_null_extend_Some.
  - intros ([[[[[u op] oc] ol] f] f2] & Hz & Hr). unfold aj_like in Hz.
    simpl in Hz. destruct ol as [l|]; [|discriminate].
    apply Hgrp in Hr as (Hr & Hid & _).
    apply in_activity_join in Hr as (_ & _ & _ & Hl & _).
    rewrite in_null_extend_Some, Hid in Hl. eauto.
  - intros (l & Hz & Hl). exists (u0, op0, oc0, Some l, f0, g0).
    split; [exact Hz|]. apply Hgrp. split; [|auto].
    apply in_activity_join. repeat split; auto.
    now apply in_null_extend_Some.
  - intros ([[[[[u op] oc] ol] f] f2] & Hz & Hr).
    unfold aj_following in Hz. cbn [fst snd] in Hz.
    destruct f as [e|]; [|discriminate]. unfold case_recent in Hz.
    apply Hgrp in Hr as (Hr & Hid & _).
    apply in_activity_join in Hr as (_ & _ & _ & _ & He & _).
    rewrite in_null_extend_Some, Hid in He. exists e. split; [|exact He].
    apply filter_In in He as [_ Hon]. apply andb_prop in Hon as [_ Hge].
    now rewrite Hge in Hz.
  - intros (e & Hz & He). exists (u0, op0, oc0, ol0, Some e, g0). split.
    + unfold aj_following, case_recent. cbn [fst snd].
      pose proof He as He'. apply filter_In in He' as [_ Hon].
      apply andb_prop in Hon as [_ Hge]. now rewrite Hge.
    + apply Hgrp. split; [|auto].
      apply in_activity_join. repeat split; auto.
      now apply in_null_extend_Some.
  - intros ([[[[[u op] oc] ol] f] f2] & Hz & Hr).
    unfold aj_followers in Hz. cbn [fst snd] in Hz.
    destruct f2 as [e|]; [|discriminate]. unfold case_recent in Hz.
    apply Hgrp in Hr as (Hr & Hid & _).
    apply in_activity_join in Hr as (_ & _ & _ & _ & _ & He).
    rewrite in_null_extend_Some, Hid in He. exists e. split; [|exact He].
    apply filter_In in He as [_ Hon]. apply andb_prop in Hon as [_ Hge].
    now rewrite Hge in Hz.
  - intros (e & Hz & He). exists (u0, op0, oc0, ol0, f0, Some e). split.
    + unfold aj_followers, case_recent. cbn [fst snd].
      pose proof He as He'. apply filter_In in He' as [_ Hon].
      apply andb_prop in Hon as [_ Hge]. now rewrite Hge.
    + apply Hgrp. split; [|auto].
      apply in_activity_join. repeat split; auto.
      now apply in_null_extend_Some.
Qed.

Lemma activity_join_since : activity_join (since w db) w = activity_join db w.
Proof.
  unfold activity_join, since. simpl.
  rewrite !left_join_filter_implied; [reflexivity|..];
    intros a b Hon; apply andb_prop in Hon as [_ Hge]; exact Hge.
Qed.
End ContributorFacts.

(** C3.  Every count of every contributor that [get_top_contributors]
    returns, whichever of its admissible results that is, is a count of
    distinct events of that user dated at or after [now - days] days:
    posts, comments and likes authored, follow edges out of the user (new
    following) and into the user (new followers).  The events counted for
    a user are exactly the user's events of the table with a timestamp of
    [now - days * 86400000000] microseconds or later, so the [days]
    argument is the lookback that is applied.  Older and undated events
    contribute to no count: dropping them from the snapshot leaves the
    result a result of the call. *)
Theorem contributor_counts_within_window
    (now : timestamp) (days limit : Z) (db : database)
    (out : list Contributor.t) :
  get_top_contributors_returns now days limit db (Ok out) ->
  let w := now - days * 86400000000 in
  (forall r, In r out ->
     let uid := Contributor.user_id r in
     Contributor.post_count r =
       count_distinct (map (fun p => Some (Post.post_id p))
                           (recent_posts db w uid)) /\
     Contributor.comment_count r =
       count_distinct (map (fun c => Some (Comment.comment_id c))
                           (recent_comments db w uid)) /\
     Contributor.like_count r =
       count_distinct (map (fun l => Some (Like.like_id l))
                           (recent_likes db w uid)) /\
     Contributor.new_following r =
       count_distinct (map (fun f => Some (Follow.followee_id f))
                           (recent_following db w uid)) /\
     Contributor.new_followers r =
       count_distinct (map (fun f => Some (Follow.follower_id f))
                           (recent_followers db w uid))) /\
  (forall uid,
     (forall p, In p (recent_posts db w uid) <->
        In p (posts db) /\ Post.user_id p = uid /\
        exists t, Post.post_time p = Some t /\ w <= t) /\
     (forall c, In c (recent_comments db w uid) <->
        In c (comments db) /\ Comment.user_id c = uid /\
        exists t, Comment.comment_time c = Some t /\ w <= t) /\
     (forall l, In l (recent_likes db w uid) <->
        In l (likes db) /\ Like.user_id l = uid /\
        exists t, Like.like_time l = Some t /\ w <= t) /\
     (forall f, In f (recent_following db w uid) <->
        In f (follows db) /\ Follow.follower_id f = uid /\
        exists t, Follow.follow_time f = Some t /\ w <= t) /\
     (forall f, In f (recent_followers db w uid) <->
        In f (follows db) /\ Follow.followee_id f = uid /\
        exists t, Follow.follow_time f = Some t /\ w <= t)) /\
  get_top_contributors_returns now days limit (since w db) (Ok out).
Proof.
  intros Hout w.
  destruct (top_contributors_returns_ok _ _ _ _ _ Hout)
    as (Hw & sorted & [Hperm Hsorted] & Hlim).
  fold w in Hw, Hperm. split; [|split].
  - intros r Hr uid. apply user_activity_counts.
    apply (in_limit _ _ _ _ Hlim) in Hr.
    exact (Permutation_in _ (Permutation_sym Hperm) Hr).
  - intros uid. split; [|split; [|split; [|split]]]; intros x.
    + exact (in_recent Post.user_id Post.post_time w uid (posts db) x).
    + exact (in_recent Comment.user_id Comment.comment_time w uid
               (comments db) x).
    + exact (in_recent Like.user_id Like.like_time w uid (likes db) x).
    + exact (in_recent Follow.follower_id Follow.follow_time w uid
               (follows db) x).
    + exact (in_recent Follow.followee_id Follow.follow_time w uid
               (follows db) x).
  - unfold get_top_contributors_returns. rewrite Hw.
    exists sorted. split; [|now symmetry]. split; [|exact Hsorted].
    unfold user_activity. rewrite activity_join_since. exact Hperm.
Qed.

Lemma contributor_counts_within_window_witness :
  exists out,
    get_top_contributors_returns now0 30 5 window_db (Ok out) /\
    map Contributor.post_count out = [1; 0] /\
    get_top_contributors_returns now0 30 5
      (since (now0 - 30 * 86400000000) window_db) (Ok out).
Proof.
  exists [Contributor.mk 2 "bob" 1 0 0 0 0 3;
          Contributor.mk 1 "alice" 0 1 0 0 0 2].
  assert (H : get_top_contributors_returns now0 30 5 window_db
                (Ok [Contributor.mk 2 "bob" 1 0 0 0 0 3;
                     Contributor.mk 1 "alice" 0 1 0 0 0 2]))
    by exact (get_top_contributors_admissible now0 30 5 window_db).
  split; [exact H|]. split; [reflexivity|].
  exact (proj2 (proj2
    (contributor_counts_within_window now0 30 5 window_db _ H))).
Defined.

(** C7, as the code has it.  Every result of [get_top_contributors] is the
    first [limit] rows of an arrangement of the per-user rows in descending
    [activity_score]: the returned rows are in descending score order, no
    row left out has a higher score than a returned one, and
    [min(limit, number of rows)] rows are returned.  The statement has no
    further sort key. *)
Theorem top_contributors_by_descending_score
    (now : timestamp) (days limit : Z) (db : database)
    (out : list Contributor.t) :
  get_top_contributors_returns now days limit db (Ok out) ->
  let all := user_activity db (now - days * 86400000000) in
  exists rest,
    Permutation (out ++ rest) all /\
    StronglySorted
      (fun a b => Contributor.activity_score b <= Contributor.activity_score a)
      (out ++ rest) /\
    length out = Nat.min (Z.to_nat limit) (length all).
Proof.
  intros H all.
  destruct (top_contributors_returns_ok _ _ _ _ _ H)
    as (_ & sorted & [Hperm Hsorted] & Hlim).
  fold all in Hperm. apply sql_limit_ok in Hlim as [_ ->].
  exists (skipn (Z.to_nat limit) sorted). rewrite firstn_skipn.
  split; [now apply Permutation_sym|]. split.
  - clear Hperm H. induction Hsorted as [|a l _ IH Hall]; constructor; auto.
    eapply Forall_impl; [|exact Hall]. intros b Hb. now apply Z.leb_le.
  - rewrite length_firstn. now rewrite (Permutation_length Hperm).
Qed.

Lemma top_contributors_by_descending_score_witness :
  exists out rest,
    get_top_contributors_returns now0 30 1 window_db (Ok out) /\
    map Contributor.user_id out = [2] /\
    Permutation (out ++ rest)
      (user_activity window_db (now0 - 30 * 86400000000)).
Proof.
  assert (H : get_top_contributors_returns now0 30 1 window_db
                (Ok [Contributor.mk 2 "bob" 1 0 0 0 0 3]))
    by exact (get_top_contributors_admissible now0 30 1 window_db).
  destruct (top_contributors_by_descending_score now0 30 1 window_db _ H)
    as (rest & Hperm & _).
  eexists. exists rest. split; [exact H|]. split; [reflexivity|].
  exact Hperm.
Defined.

(** C7, as stated, fails: the five users of [five_idle_db] all score 0, and
    with [limit = 2] the statement can return user 2 followed by user 1. *)
Lemma top_contributors_user_id_tie_break_fails :
  exists a b,
    get_top_contributors_returns now0 30 2 five_idle_db (Ok [a; b]) /\
    Contributor.activity_score a = Contributor.activity_score b /\
    Contributor.user_id a = 2 /\ Contributor.user_id b = 1.
Proof.
  exists (idle_row bob), (idle_row alice). split; [|repeat split].
  unfold get_top_contributors_returns.
  rewrite window_start_in_range
    by (unfold now0, pg_timestamp_min, pg_timestamp_end; lia).
  exists (map idle_row [bob; alice; carol; dave; erin]).
  split; [|reflexivity]. split.
  - change (user_activity five_idle_db (now0 - 30 * 86400000000))
      with (map idle_row [alice; bob; carol; dave; erin]).
    apply perm_swap.
  - repeat (constructor; [|repeat constructor]). constructor.
Qed.

(** ** Controversial posts *)

Lemma Zsum_sq_cons x l : Zsum_sq (x :: l) = x * x + Zsum_sq l.
Proof. reflexivity. Qed.

(** The sum of squared deviations, expanded. *)
Lemma sum_sq_dev_expand (mean : Q) (l : list Z) :
  (sum_sq_dev mean l ==
   inject_Z (Zsum_sq l) - (2 # 1) * mean * inject_Z (Zsum l)
   + inject_Z (Z.of_nat (length l)) * mean * mean)%Q.
Proof.
  induction l as [|x l IH].
  - simpl. unfold Zsum_sq. simpl. ring.
  - cbn [sum_sq_dev fold_right]. fold (sum_sq_dev mean l). rewrite IH.
    rewrite Zsum_sq_cons. cbn [Zsum fold_right length]. fold (Zsum l).
    rewrite Nat2Z.inj_succ. unfold Z.succ.
    rewrite !inject_Z_plus, inject_Z_mult. change (inject_Z 1) with 1%Q.
    ring.
Qed.

(** The accumulated form of [STDDEV] is the sample variance: the sum of
    squared deviations from the mean, divided by [N - 1]. *)
Lemma sample_variance_accumulated (l : list Z) :
  2 <= Z.of_nat (length l) ->
  (inject_Z (Z.of_nat (length l) * Zsum_sq l - Zsum l * Zsum l)
   / inject_Z (Z.of_nat (length l) * (Z.of_nat (length l) - 1)) ==
   sum_sq_dev (mean_of l) l / inject_Z (Z.of_nat (length l) - 1))%Q.
Proof.
  intros Hn. rewrite sum_sq_dev_expand. unfold mean_of.
  set (n := Z.of_nat (length l)) in *.
  unfold Z.sub. rewrite !inject_Z_plus, !inject_Z_mult, !inject_Z_plus,
    !inject_Z_opp, inject_Z_mult.
  change (inject_Z 1) with 1%Q.
  assert (H0 : ~ (inject_Z n == 0)%Q).
  { change 0%Q with (inject_Z 0). intros H. apply (proj1 (inject_Z_injective _ _)) in H. lia. }
  assert (H1 : ~ (inject_Z n + - (1) == 0)%Q).
  { change (- (1))%Q with (inject_Z (-1)). rewrite <- inject_Z_plus.
    change 0%Q with (inject_Z 0). intros H. apply (proj1 (inject_Z_injective _ _)) in H. lia. }
  field. split; assumption.
Qed.

Lemma filter_post_id_group (db : database) (pid : Z) :
  filter (fun c => eqb_of Z.eq_dec (Comment.post_id c) pid) (comments db)
  = comments_on db pid.
Proof.
  unfold comments_on. apply filter_ext. intros c. unfold eqb_of.
  destruct (Z.eq_dec (Comment.post_id c) pid) as [->|Hne].
  - symmetry. apply Z.eqb_refl.
  - symmetry. apply Z.eqb_neq. congruence.
Qed.

(** C5.  For every reported post, [stddev_comment_length] is the sample
    standard deviation of the lengths of the post's comment texts: the root
    of the sum of squared deviations from the mean divided by [N - 1], and
    it agrees with the dispersion as documented, which is 0 for [N = 1].
    A reported post has two comments or more. *)
Theorem controversial_stddev_is_sample_stddev
    (min_comments : Z) (min_stddev : Q) (db : database)
    (r : Controversial.t) :
  In r (identify_controversial_posts min_comments min_stddev db) ->
  let lens := comment_lengths db (Controversial.post_id r) in
  let n := Z.of_nat (length lens) in
  Controversial.total_comments r = n /\
  2 <= n /\
  exists v,
    Controversial.stddev_comment_length r = Some (Sqrt v) /\
    (v == sum_sq_dev (mean_of lens) lens / inject_Z (n - 1))%Q /\
    exists d, stddev_documented lens = Some d /\ (v == radicand d)%Q.
Proof.
  unfold identify_controversial_posts. rewrite in_order_by, in_map_iff.
  intros ([[[p cs] rd] u] & <- & Hr). apply filter_In in Hr as [Hr Hsd].
  cbn [fst snd] in Hsd.
  apply in_inner_join in Hr as (Hr & _ & _).
  apply in_left_join in Hr as (Hr & _).
  apply in_inner_join in Hr as (_ & Hcs & Hid). apply Z.eqb_eq in Hid.
  unfold comment_stats in Hcs. apply in_map_iff in Hcs as ([pid g] & <- & Hg).
  apply filter_In in Hg as [Hg _]. apply in_group_by in Hg as [_ ->].
  rewrite filter_post_id_group in *.
  cbn [controversial_row comment_stats_row fst snd
       Controversial.post_id Controversial.total_comments
       Controversial.stddev_comment_length CommentStats.post_id
       CommentStats.total_comments CommentStats.stddev_comment_length] in *.
  rewrite Hid. unfold comment_lengths.
  set (lens := map text_length (comments_on db pid)) in *.
  assert (Hlen : count_rows (comments_on db pid) = Z.of_nat (length lens))
    by (unfold count_rows, lens; now rewrite length_map).
  unfold sql_stddev in *.
  destruct (Z.of_nat (length lens) <=? 1) eqn:E; [discriminate|].
  apply Z.leb_gt in E.
  split; [assumption|]. split; [lia|].
  assert (Hv := sample_variance_accumulated lens ltac:(lia)).
  eexists. split; [reflexivity|]. split; [exact Hv|].
  clearbody lens. destruct lens as [|a [|b t]]; try (simpl in E; lia).
  eexists. split; [reflexivity|]. exact Hv.
Qed.

Lemma controversial_stddev_is_sample_stddev_witness :
  exists r, In r (identify_controversial_posts 1 2 debate_db) /\
    Controversial.total_comments r = 3 /\
    exists v, Controversial.stddev_comment_length r = Some (Sqrt v) /\
      (v == 4)%Q.
Proof.
  eexists. split; [left; reflexivity|].
  destruct (controversial_stddev_is_sample_stddev 1 2 debate_db _
              (or_introl eq_refl)) as (Hn & _ & v & Hv & Heq & _).
  split; [exact Hn|]. exists v. split; [exact Hv|].
  rewrite Heq. reflexivity.
Defined.

(** ** Network analysis *)

Lemma filter_none {A} (f : A -> bool) l :
  (forall x, In x l -> f x = false) -> filter f l = [].
Proof.
  induction l as [|a l IH]; simpl; [reflexivity|].
  intros H. rewrite (H a (or_introl eq_refl)). apply IH. auto.
Qed.

(** A primary-key lookup matches exactly one row. *)
Lemma filter_pk_singleton {A} (key : A -> Z) l x :
  NoDup (map key l) -> In x l ->
  filter (fun y => key x =? key y) l = [x].
Proof.
  induction l as [|a l IH]; simpl; [tauto|].
  intros Hnd Hx. inversion Hnd as [|? ? Hni Hnd']; subst.
  destruct Hx as [->|Hx].
  - rewrite Z.eqb_refl. f_equal. apply filter_none.
    intros y Hy. apply Z.eqb_neq. intros Heq. apply Hni. rewrite Heq.
    now apply in_map.
  - assert (Hne : key x <> key a).
    { intros Heq. apply Hni. rewrite <- Heq. now apply in_map. }
    apply Z.eqb_neq in Hne. rewrite Hne. now apply IH.
Qed.

Section NetworkFacts.
Variable db : database.
Hypothesis Hpk : users_pk db.
Hypothesis Hfk : follows_fk db.

Lemma name_of_user u :
  In u (users db) -> name_of db (User.user_id u) = User.username u.
Proof.
  intros Hu. unfold name_of.
  destruct (find _ (users db)) as [u'|] eqn:E.
  - apply find_some in E as [Hu' Hid]. apply Z.eqb_eq in Hid.
    now rewrite (pk_injective User.user_id (users db) u u' Hpk Hu Hu' Hid).
  - pose proof (find_none _ _ E u Hu) as Hn. simpl in Hn.
    now rewrite Z.eqb_refl in Hn.
Qed.

Lemma filter_user_by_id x u :
  In u (users db) -> User.user_id u = x ->
  filter (fun u' => x =? User.user_id u') (users db) = [u].
Proof.
  intros Hu <-. now apply filter_pk_singleton.
Qed.

(** The join resolves every follow edge to exactly one row. *)
Lemma follower_network_rows fs :
  incl fs (follows db) ->
  map (fun r : Follow.t * User.t * User.t =>
         NetworkEdge.mk (User.username (snd (fst r)))
                        (User.username (snd r))
                        (Follow.follow_time (fst (fst r))))
    (sql_inner_join
       (fun r u2 => Follow.followee_id (fst r) =? User.user_id u2)
       (sql_inner_join
          (fun f u1 => Follow.follower_id f =? User.user_id u1)
          fs (users db))
       (users db))
  = map (fun f => NetworkEdge.mk (name_of db (Follow.follower_id f))
                                 (name_of db (Follow.followee_id f))
                                 (Follow.follow_time f)) fs.
Proof.
  induction fs as [|f fs IH]; intros Hincl; [reflexivity|].
  assert (Hf : In f (follows db)) by (apply Hincl; now left).
  destruct (Hfk f Hf) as [(u1 & Hu1 & Hid1) (u2 & Hu2 & Hid2)].
  unfold sql_inner_join in *. cbn [flat_map].
  rewrite (filter_user_by_id _ u1 Hu1 Hid1).
  cbn [map app flat_map fst snd].
  rewrite (filter_user_by_id _ u2 Hu2 Hid2).
  cbn [map app fst snd]. rewrite IH by (intros x Hx; apply Hincl; now right).
  f_equal. f_equal; [rewrite <- Hid1|rewrite <- Hid2];
    symmetry; now apply name_of_user.
Qed.

End NetworkFacts.

(** C8.  [analyze_and_visualize_network] computes no density.  The class
    has no attribute [identify_ghost_followers], so the first statement of
    the method raises [AttributeError], whatever the statements after it
    do: on [square_db], with 4 users and 6 follow edges, and on every other
    snapshot.  No density, user count or connection count is reported. *)
Theorem network_analysis_raises_attribute_error
    (remaining_statements : database -> result unit) :
  getattr NetworkAnalyzer_attributes "identify_ghost_followers"
  = Raise AttributeError /\
  analyze_and_visualize_network remaining_statements square_db
  = Raise AttributeError /\
  forall db,
    analyze_and_visualize_network remaining_statements db
    = Raise AttributeError.
Proof.
  split; [reflexivity|]. split; [reflexivity|]. intros db. reflexivity.
Qed.

(** C9 at the empty snapshot.  The queries that run return empty results,
    and every result of [get_top_contributors] is empty; but the network
    analysis raises [AttributeError] and the thread-depth query raises
    [ProgrammingError], as they do on every snapshot. *)
Theorem empty_snapshot_analysis_raises :
  (forall remaining_statements,
     analyze_and_visualize_network remaining_statements empty_db
     = Raise AttributeError) /\
  (forall selected_rows,
     analyze_thread_depth selected_rows empty_db 2
     = Raise ProgrammingError) /\
  get_post_activity_timeline 1 empty_db = Frame [] [] /\
  identify_controversial_posts 10 2 empty_db = [] /\
  get_top_contributors now0 30 5 empty_db = Ok [] /\
  (forall res, get_top_contributors_returns now0 30 5 empty_db res ->
     res = Ok []) /\
  get_post_engagement_call now0 30 empty_db = Ok [] /\
  get_user_engagement_summary empty_db = [] /\
  get_follower_network empty_db = Frame [] [].
Proof.
  split; [reflexivity|]. split; [reflexivity|].
  split; [reflexivity|]. split; [reflexivity|]. split; [reflexivity|].
  split; [|repeat split].
  intros res H. unfold get_top_contributors_returns in H.
  rewrite window_start_in_range in H
    by (unfold now0, pg_timestamp_min, pg_timestamp_end; lia).
  destruct H as (sorted & [Hperm _] & ->).
  change (user_activity empty_db (now0 - 30 * 86400000000))
    with (@nil Contributor.t) in Hperm.
  apply Permutation_nil in Hperm. now subst sorted.
Qed.

Lemma square_db_constraints : users_pk square_db /\ follows_fk square_db.
Proof.
  split; [unfold users_pk; simpl; concrete_nodup|].
  intros f H. split.
  - simpl in H.
    destruct H as [<-|[<-|[<-|[<-|[<-|[<-|[]]]]]]];
      [exists bob|exists carol|exists dave|exists alice|exists carol
       |exists alice]; simpl; auto 6.
  - simpl in H.
    destruct H as [<-|[<-|[<-|[<-|[<-|[<-|[]]]]]]];
      [exists alice|exists alice|exists alice|exists bob|exists bob
       |exists carol]; simpl; auto 6.
Qed.


(** * Further properties of the analyzers *)

(** ** Activity timeline *)

Lemma records_DataFrame {R} labels (rows : list R) :
  records (DataFrame labels rows) = rows.
Proof. destruct rows; reflexivity. Qed.

Lemma asc_before_total a b : asc_before a b = false -> asc_before b a = true.
Proof.
  destruct a, b; simpl; try discriminate; auto.
  rewrite Z.leb_gt, Z.leb_le. lia.
Qed.

Lemma asc_before_trans a b c :
  asc_before a b = true -> asc_before b c = true -> asc_before a c = true.
Proof.
  destruct a, b, c; simpl; try discriminate; auto.
  rewrite !Z.leb_le. lia.
Qed.

Lemma filter_app_length {A} (f : A -> bool) l1 l2 :
  length (filter f (l1 ++ l2))
  = (length (filter f l1) + length (filter f l2))%nat.
Proof.
  now rewrite filter_app, length_app.
Qed.

(** X5.  The timeline of a post is ordered by timestamp ascending (undated
    events last).  Every event is a comment on that post by an existing
    user, carrying its text and no like count, or a like of that post by an
    existing user, carrying the number of like events of the same calendar
    day in the timeline (not a running total). *)
Theorem timeline_sorted_with_same_day_like_counts (post_id : Z) (db : database) :
  let events := records (get_post_activity_timeline post_id db) in
  StronglySorted
    (fun a b => asc_before (Activity.timestamp a) (Activity.timestamp b) = true)
    events /\
  forall e, In e events ->
    (Activity.activity_type e = "comment"%string /\
     Activity.like_count e = None /\
     exists c u, In c (comments db) /\ In u (users db) /\
       Comment.post_id c = post_id /\ Comment.user_id c = User.user_id u /\
       Activity.timestamp e = Comment.comment_time c /\
       Activity.username e = User.username u /\
       Activity.content e = Some (Comment.comment_text c)) \/
    (Activity.activity_type e = "like"%string /\
     Activity.content e = None /\
     Activity.like_count e =
       Some (count_rows
               (filter (fun e' =>
                          String.eqb (Activity.activity_type e') "like"
                          && option_Z_eqb (sql_date (Activity.timestamp e'))
                                          (sql_date (Activity.timestamp e)))
                       events)) /\
     exists l u, In l (likes db) /\ In u (users db) /\
       Like.post_id l = Some post_id /\ Like.user_id l = User.user_id u /\
       Activity.timestamp e = Like.like_time l /\
       Activity.username e = User.username u).
Proof.
  intros events. unfold events, get_post_activity_timeline. cbv zeta.
  rewrite records_DataFrame.
  set (commented := sql_inner_join _ (filter _ (comments db)) (users db)).
  set (liked := sql_inner_join _ (filter _ (likes db)) (users db)).
  set (cev := map _ commented). set (lev := map _ liked).
  split.
  - apply (order_by_sorted
             (fun a b => asc_before (Activity.timestamp a)
                                    (Activity.timestamp b))).
    + intros x y. apply asc_before_total.
    + intros x y z. apply asc_before_trans.
  - intros e He. apply in_order_by in He. apply in_app_or in He.
    destruct He as [He|He].
    + left. unfold cev in He. apply in_map_iff in He as ([c u] & <- & Hcu).
      unfold commented in Hcu. apply in_inner_join in Hcu as (Hc & Hu & Hon).
      apply filter_In in Hc as [Hc Hp]. apply Z.eqb_eq in Hp, Hon.
      simpl. repeat split. exists c, u. repeat split; auto.
    + right. unfold lev in He. apply in_map_iff in He as ([l u] & <- & Hlu).
      pose proof Hlu as Hlu'.
      unfold liked in Hlu'. apply in_inner_join in Hlu' as (Hl & Hu & Hon).
      apply filter_In in Hl as [Hl Hp]. apply Z.eqb_eq in Hon.
      cbn [Activity.activity_type Activity.content Activity.like_count
           Activity.timestamp Activity.username fst snd].
      split; [reflexivity|]. split; [reflexivity|]. split.
      * f_equal. unfold count_rows. f_equal.
        rewrite <- (filter_perm_length _ _ _ (order_by_perm _ (cev ++ lev))).
        rewrite filter_app_length.
        replace (length (filter _ cev)) with O.
        -- simpl. unfold lev. rewrite filter_map_length. reflexivity.
        -- unfold cev. rewrite filter_map_length. symmetry.
           rewrite filter_none; [reflexivity|]. intros x _. reflexivity.
      * exists l, u. repeat split; auto.
        destruct (Like.post_id l) as [pid|]; [|discriminate].
        simpl in Hp. apply Z.eqb_eq in Hp. now subst.
Qed.

(** ** Controversial posts: thresholds, score, order *)

Lemma in_identify_controversial min_comments min_stddev db r :
  In r (identify_controversial_posts min_comments min_stddev db) ->
  exists p rd u s,
    In p (posts db) /\ In u (users db) /\
    Post.user_id p = User.user_id u /\
    r = controversial_row
          (p, comment_stats_row
                (Post.post_id p, comments_on db (Post.post_id p)), rd, u) /\
    min_comments <= count_rows (comments_on db (Post.post_id p)) /\
    sql_stddev (comment_lengths db (Post.post_id p)) = Some s /\
    root_ge s min_stddev = true.
Proof.
  unfold identify_controversial_posts. rewrite in_order_by, in_map_iff.
  intros ([[[p cs] rd] u] & <- & Hr). apply filter_In in Hr as [Hr Hsd].
  cbn [fst snd] in Hsd.
  apply in_inner_join in Hr as (Hr & Hu & Hpu). apply Z.eqb_eq in Hpu.
  apply in_left_join in Hr as (Hr & _).
  apply in_inner_join in Hr as (Hp & Hcs & Hid). apply Z.eqb_eq in Hid.
  simpl in Hpu.
  unfold comment_stats in Hcs. apply in_map_iff in Hcs as ([pid g] & <- & Hg).
  apply filter_In in Hg as [Hg Hmin]. apply in_group_by in Hg as [_ ->].
  rewrite filter_post_id_group in *. simpl in Hid. subst pid.
  cbn [snd] in Hmin. apply Z.leb_le in Hmin.
  cbn [comment_stats_row CommentStats.stddev_comment_length fst snd] in Hsd.
  destruct (sql_stddev _) as [s|] eqn:Es; [|discriminate].
  exists p, rd, u, s. repeat split; auto.
Qed.

Lemma not_after_Qcompare x y :
  not_after (x ?= y)%Q = true <-> (x <= y)%Q.
Proof.
  rewrite Qle_alt. destruct (x ?= y)%Q; simpl; split; congruence.
Qed.

Lemma cmp_desc_root_total a b :
  not_after (cmp_desc_root a b) = false ->
  not_after (cmp_desc_root b a) = true.
Proof.
  destruct a as [x|], b as [y|]; simpl; try discriminate; auto.
  intros H. apply not_after_Qcompare.
  destruct (Qlt_le_dec (radicand x) (radicand y)) as [Hlt|Hle];
    [now apply Qlt_le_weak|].
  apply not_after_Qcompare in Hle. congruence.
Qed.

Lemma cmp_desc_root_trans a b c :
  not_after (cmp_desc_root a b) = true ->
  not_after (cmp_desc_root b c) = true ->
  not_after (cmp_desc_root a c) = true.
Proof.
  destruct a as [x|], b as [y|], c as [z|]; simpl; try discriminate; auto.
  rewrite !not_after_Qcompare. intros H1 H2. eapply Qle_trans; eauto.
Qed.

(** X6.  Every reported post has at least [min_comments] comments and a
    dispersion of at least [min_stddev] (the threshold is non-positive or
    its square is at most the variance); its [controversy_score] is the
    dispersion times the comment count; and the result is ordered by
    [controversy_score] descending. *)
Theorem controversial_posts_pass_thresholds_sorted
    (min_comments : Z) (min_stddev : Q) (db : database) :
  let out := identify_controversial_posts min_comments min_stddev db in
  (forall r, In r out ->
     min_comments <= Controversial.total_comments r /\
     exists s,
       Controversial.stddev_comment_length r = Some s /\
       ((min_stddev <= 0)%Q \/ (min_stddev * min_stddev <= radicand s)%Q) /\
       Controversial.controversy_score r =
         Some (root_scale s (Controversial.total_comments r))) /\
  StronglySorted
    (fun a b => forall x y,
       Controversial.controversy_score a = Some x ->
       Controversial.controversy_score b = Some y ->
       (radicand y <= radicand x)%Q)
    out.
Proof.
  intros out. split.
  - intros r Hr.
    apply in_identify_controversial in Hr
      as (p & rd & u & s & Hp & Hu & Hpu & -> & Hmin & Hs & Hge).
    cbn [controversial_row comment_stats_row fst snd
         Controversial.total_comments Controversial.stddev_comment_length
         Controversial.controversy_score CommentStats.total_comments
         CommentStats.stddev_comment_length].
    split; [exact Hmin|]. exists s. unfold comment_lengths in Hs.
    rewrite Hs. split; [reflexivity|]. split; [|reflexivity].
    unfold root_ge in Hge. apply orb_prop in Hge as [H|H];
      apply Qle_bool_iff in H; auto.
  - unfold out, identify_controversial_posts.
    match goal with |- StronglySorted _ (sql_order_by ?bf ?l) =>
      pose proof (order_by_sorted bf
                    (fun x y => cmp_desc_root_total _ _)
                    (fun x y z => cmp_desc_root_trans _ _ _) l) as Hs
    end.
    induction Hs as [|a l _ IH Hall]; constructor; auto.
    eapply Forall_impl; [|exact Hall]. simpl. intros b Hb x y Hx Hy.
    rewrite Hx, Hy in Hb. simpl in Hb. now apply not_after_Qcompare.
Qed.

Lemma Qsquare_nonneg (q : Q) : (0 <= q * q)%Q.
Proof.
  destruct (Qlt_le_dec q 0) as [Hneg|Hpos].
  - setoid_replace (q * q)%Q with ((- q) * (- q))%Q by ring.
    apply Qmult_le_0_compat; lra.
  - now apply Qmult_le_0_compat.
Qed.

Lemma sum_sq_dev_nonneg mean l : (0 <= sum_sq_dev mean l)%Q.
Proof.
  induction l as [|x l IH]; simpl; [apply Qle_refl|].
  pose proof (Qsquare_nonneg (inject_Z x - mean)) as Hsq. lra.
Qed.

Lemma Zsum_constant a l :
  (forall x, In x l -> x = a) -> Zsum l = Z.of_nat (length l) * a.
Proof.
  induction l as [|x l IH]; intros H; [reflexivity|].
  cbn [Zsum fold_right length]. fold (Zsum l).
  rewrite IH by (intros y Hy; apply H; now right).
  rewrite (H x (or_introl eq_refl)). lia.
Qed.

Lemma sum_sq_dev_constant (mean : Q) a l :
  (forall x, In x l -> x = a) -> (mean == inject_Z a)%Q ->
  (sum_sq_dev mean l == 0)%Q.
Proof.
  intros H Hm. induction l as [|x l IH]; simpl; [reflexivity|].
  rewrite IH by (intros y Hy; apply H; now right).
  rewrite (H x (or_introl eq_refl)), Hm. ring.
Qed.

Lemma sql_stddev_variance (l : list Z) (s : root) :
  sql_stddev l = Some s ->
  (0 <= radicand s)%Q /\
  forall a, (forall x, In x l -> x = a) -> (radicand s == 0)%Q.
Proof.
  unfold sql_stddev. destruct (Z.of_nat (length l) <=? 1) eqn:E;
    [discriminate|].
  apply Z.leb_gt in E. intros H. inversion H; subst s; clear H.
  cbn [radicand].
  assert (Hpos : (0 < inject_Z (Z.of_nat (length l) - 1))%Q).
  { change 0%Q with (inject_Z 0). rewrite <- Zlt_Qlt. lia. }
  split.
  - rewrite sample_variance_accumulated by lia.
    apply Qle_shift_div_l; [exact Hpos|].
    rewrite Qmult_0_l. apply sum_sq_dev_nonneg.
  - intros a Ha.
    assert (Hz : (sum_sq_dev (mean_of l) l == 0)%Q).
    { apply (sum_sq_dev_constant _ a); [exact Ha|].
      unfold mean_of. rewrite (Zsum_constant a l Ha), inject_Z_mult.
      field. change 0%Q with (inject_Z 0). intros Hz.
      apply (proj1 (inject_Z_injective _ _)) in Hz. lia. }
    rewrite sample_variance_accumulated by lia.
    rewrite Hz. unfold Qdiv. ring.
Qed.

(** X7.  The dispersion and the score of a reported post are well-defined:
    the variance under the root is never negative, nor is the squared score;
    and when all comments of the post have the same length the dispersion
    is 0. *)
Theorem controversial_variance_nonnegative
    (min_comments : Z) (min_stddev : Q) (db : database)
    (r : Controversial.t) :
  In r (identify_controversial_posts min_comments min_stddev db) ->
  exists s sc,
    Controversial.stddev_comment_length r = Some s /\
    Controversial.controversy_score r = Some sc /\
    (0 <= radicand s)%Q /\ (0 <= radicand sc)%Q /\
    forall a,
      (forall x, In x (comment_lengths db (Controversial.post_id r)) ->
         x = a) ->
      (radicand s == 0)%Q /\ (radicand sc == 0)%Q.
Proof.
  intros Hr.
  apply in_identify_controversial in Hr
    as (p & rd & u & s & Hp & Hu & Hpu & -> & Hmin & Hs & Hge).
  cbn [controversial_row comment_stats_row fst snd
       Controversial.total_comments Controversial.stddev_comment_length
       Controversial.controversy_score Controversial.post_id
       CommentStats.total_comments CommentStats.stddev_comment_length].
  unfold comment_lengths in *. rewrite Hs.
  destruct (sql_stddev_variance _ s Hs) as [Hnn Hconst].
  eexists. eexists. split; [reflexivity|]. split; [reflexivity|].
  cbn [root_scale radicand]. split; [exact Hnn|]. split.
  - rewrite <- Qmult_assoc. apply Qmult_le_0_compat; [exact Hnn|].
    apply Qsquare_nonneg.
  - intros a Ha. specialize (Hconst a Ha). split; [exact Hconst|].
    rewrite Hconst. ring.
Qed.

Lemma controversial_variance_nonnegative_witness :
  exists r s, In r (identify_controversial_posts 1 2 debate_db) /\
    Controversial.stddev_comment_length r = Some s /\ (0 <= radicand s)%Q.
Proof.
  destruct (controversial_variance_nonnegative 1 2 debate_db _
              (or_introl eq_refl)) as (s & sc & Hs & _ & Hnn & _).
  eexists. exists s. split; [left; reflexivity|]. split; assumption.
Defined.

(** ** Post engagement: window, order, rank bounds *)

Lemma in_post_stats db start_date s :
  In s (post_stats db start_date) <->
  exists r0, In r0 (post_join db start_date) /\
    s = post_stats_row
          (post_key_of r0,
           filter (fun r => eqb_of post_key_dec (post_key_of r)
                                   (post_key_of r0))
                  (post_join db start_date)).
Proof.
  unfold post_stats. rewrite in_map_iff. split.
  - intros ([key g] & <- & Hg). apply in_group_by in Hg as [Hkey ->].
    apply in_map_iff in Hkey as (r0 & <- & Hin). now exists r0.
  - intros (r0 & Hin & ->). eexists. split; [reflexivity|].
    apply in_group_by. split; [|reflexivity]. now apply in_map.
Qed.

Lemma post_engagement_rows_recent
    (now : timestamp) (days : Z) (db : database) :
  let out := get_post_engagement now days db in
  (forall r, In r out ->
     exists p u t,
       In p (posts db) /\ In u (users db) /\
       Post.user_id p = User.user_id u /\
       PostEngagement.post_id r = Post.post_id p /\
       PostEngagement.author_id r = Post.user_id p /\
       PostEngagement.author_name r = User.username u /\
       PostEngagement.post_text r = Post.post_text p /\
       PostEngagement.post_time r = Some t /\ Post.post_time p = Some t /\
       now - timedelta_days days <= t) /\
  (forall p u t,
     In p (posts db) -> In u (users db) ->
     Post.user_id p = User.user_id u ->
     Post.post_time p = Some t -> now - timedelta_days days <= t ->
     exists r, In r out /\
       PostEngagement.post_id r = Post.post_id p /\
       PostEngagement.author_name r = User.username u /\
       PostEngagement.post_time r = Some t).
Proof.
  intros out. split.
  - intros r Hr. apply in_get_post_engagement in Hr as (s & Hs & ->).
    apply in_post_stats in Hs as ([[[[p ol] oc] u] fo] & Hin & ->).
    apply in_post_join in Hin as (Hp & _ & _ & Hu & Hpu & _ & Ht).
    apply sql_ge_window in Ht as (t & Ht & Hle).
    exists p, u, t. unfold post_key_of, pj_post, pj_user. simpl.
    repeat split; auto.
  - intros p u t Hp Hu Hpu Ht Hle.
    destruct (null_extend_inhabited (likes_on db (Post.post_id p)))
      as (ol & Hol).
    destruct (null_extend_inhabited (comments_on db (Post.post_id p)))
      as (oc & Hoc).
    destruct (null_extend_inhabited (followers_of db (Post.user_id p)))
      as (fo & Hfo).
    assert (Hin : In (p, ol, oc, u, fo)
                     (post_join db (now - timedelta_days days))).
    { apply in_post_join. repeat split; auto.
      apply sql_ge_window. now exists t. }
    eexists. split.
    + apply in_get_post_engagement. eexists. split; [|reflexivity].
      apply in_post_stats. exists (p, ol, oc, u, fo). split; [exact Hin|].
      reflexivity.
    + unfold post_key_of, pj_post, pj_user. simpl. auto.
Qed.

Lemma post_engagement_call_in_range now days db :
  Z.abs days <= 999999999 ->
  datetime_min <= now - timedelta_days days <= datetime_max ->
  get_post_engagement_call now days db = Ok (get_post_engagement now days db).
Proof.
  intros H1 [H2 H3]. unfold get_post_engagement_call, utc_start_date.
  apply Z.leb_le in H1, H2, H3. now rewrite H1, H2, H3.
Qed.

Lemma post_engagement_call_ok now days db out :
  get_post_engagement_call now days db = Ok out ->
  out = get_post_engagement now days db /\
  Z.abs days <= 999999999 /\
  datetime_min <= now - timedelta_days days <= datetime_max.
Proof.
  unfold get_post_engagement_call, utc_start_date.
  destruct (Z.abs days <=? 999999999) eqn:E1; [|discriminate].
  destruct (datetime_min <=? now - timedelta_days days) eqn:E2;
    [|discriminate].
  destruct (now - timedelta_days days <=? datetime_max) eqn:E3;
    [|discriminate].
  cbn [andb bind]. intros H. inversion H.
  apply Z.leb_le in E1, E2, E3. auto.
Qed.

(** X8.  With a lookback of at most 999999999 days that leads to a start
    date Python can represent, a call of [get_post_engagement] returns, and
    reports exactly the posts created at or after [now - days] whose author
    exists: every row is such a post, with its author's name, and every
    such post has a row.  Undated and older posts are left out. *)
Theorem post_engagement_reports_recent_posts
    (now : timestamp) (days : Z) (db : database) :
  Z.abs days <= 999999999 ->
  datetime_min <= now - timedelta_days days <= datetime_max ->
  exists out,
    get_post_engagement_call now days db = Ok out /\
    (forall r, In r out ->
       exists p u t,
         In p (posts db) /\ In u (users db) /\
         Post.user_id p = User.user_id u /\
         PostEngagement.post_id r = Post.post_id p /\
         PostEngagement.author_id r = Post.user_id p /\
         PostEngagement.author_name r = User.username u /\
         PostEngagement.post_text r = Post.post_text p /\
         PostEngagement.post_time r = Some t /\ Post.post_time p = Some t /\
         now - timedelta_days days <= t) /\
    (forall p u t,
       In p (posts db) -> In u (users db) ->
       Post.user_id p = User.user_id u ->
       Post.post_time p = Some t -> now - timedelta_days days <= t ->
       exists r, In r out /\
         PostEngagement.post_id r = Post.post_id p /\
         PostEngagement.author_name r = User.username u /\
         PostEngagement.post_time r = Some t).
Proof.
  intros Hdays Hrange. exists (get_post_engagement now days db).
  split; [now apply post_engagement_call_in_range|].
  apply post_engagement_rows_recent.
Qed.

Lemma post_engagement_reports_recent_posts_witness :
  exists out r,
    get_post_engagement_call now0 30 third_db = Ok out /\ In r out /\
    PostEngagement.post_id r = 1 /\
    PostEngagement.author_name r = "alice"%string.
Proof.
  destruct (post_engagement_reports_recent_posts now0 30 third_db)
    as (out & Hout & _ & Hall).
  - simpl. lia.
  - unfold now0, timedelta_days, datetime_min, datetime_max. lia.
  - destruct (Hall (Post.mk 1 1 (Some "hello"%string) None
                      (Some 1699990000000000) None)
                   alice 1699990000000000)
      as (r & Hr & Hid & Hname & _).
    + simpl. auto.
    + simpl. auto.
    + reflexivity.
    + reflexivity.
    + unfold now0, timedelta_days. lia.
    + exists out, r. auto.
Defined.

Lemma cmp_desc_Q_total a b :
  not_after (cmp_desc_Q a b) = false -> not_after (cmp_desc_Q b a) = true.
Proof.
  destruct a as [x|], b as [y|]; simpl; try discriminate; auto.
  intros H. apply not_after_Qcompare.
  destruct (Qlt_le_dec x y) as [Hlt|Hle]; [now apply Qlt_le_weak|].
  apply not_after_Qcompare in Hle. congruence.
Qed.

Lemma cmp_desc_Q_trans a b c :
  not_after (cmp_desc_Q a b) = true -> not_after (cmp_desc_Q b c) = true ->
  not_after (cmp_desc_Q a c) = true.
Proof.
  destruct a as [x|], b as [y|], c as [z|]; simpl; try discriminate; auto.
  rewrite !not_after_Qcompare. intros H1 H2. eapply Qle_trans; eauto.
Qed.

(** X9.  The rows of [get_post_engagement] are ordered by [engagement_rate]
    descending, the rows without a rate (no follower) first: of two rows,
    the earlier one has no rate, or both have one and the earlier rate is
    at least the later. *)
Theorem post_engagement_sorted_by_rate
    (now : timestamp) (days : Z) (db : database) :
  StronglySorted
    (fun a b =>
       PostEngagement.engagement_rate a = None \/
       exists x y, PostEngagement.engagement_rate a = Some x /\
         PostEngagement.engagement_rate b = Some y /\ (y <= x)%Q)
    (get_post_engagement now days db).
Proof.
  unfold get_post_engagement. cbv zeta.
  match goal with |- StronglySorted _ (sql_order_by ?bf ?l) =>
    pose proof (order_by_sorted bf
                  (fun x y => cmp_desc_Q_total _ _)
                  (fun x y z => cmp_desc_Q_trans _ _ _) l) as Hs
  end.
  induction Hs as [|a l _ IH Hall]; constructor; auto.
  eapply Forall_impl; [|exact Hall]. simpl. intros b Hb.
  destruct (PostEngagement.engagement_rate a) as [x|]; [|now left].
  destruct (PostEngagement.engagement_rate b) as [y|]; [|discriminate].
  right. exists x, y. repeat split. now apply not_after_Qcompare.
Qed.

Lemma engagement_rank_formula now days db r :
  In r (get_post_engagement now days db) ->
  PostEngagement.engagement_rank r =
  1 + count_rows (filter (fun r' => combined r <? combined r')
                         (get_post_engagement now days db)).
Proof.
  intros Hr. apply in_get_post_engagement in Hr as (s & Hs & ->).
  unfold get_post_engagement. cbv zeta.
  set (stats := post_stats db (now - timedelta_days days)).
  cbn [post_engagement_row PostEngagement.engagement_rank].
  unfold sql_rank_desc, count_rows. do 2 f_equal.
  rewrite <- (filter_perm_length _ _ _ (order_by_perm _ _)).
  rewrite filter_map_length. reflexivity.
Qed.

Lemma filter_length_excluding {A} (f : A -> bool) l x :
  In x l -> f x = false -> (length (filter f l) < length l)%nat.
Proof.
  induction l as [|a l IH]; simpl; [tauto|].
  intros [->|Hx] Hf.
  - rewrite Hf. pose proof (filter_length_le f l). lia.
  - specialize (IH Hx Hf). destruct (f a); simpl; lia.
Qed.

(** X10.  Every [engagement_rank] lies between 1 and the number of returned
    posts, and a post has rank 1 exactly when no returned post has a greater
    combined count. *)
Theorem engagement_rank_bounds
    (now : timestamp) (days : Z) (db : database) (r : PostEngagement.t) :
  let out := get_post_engagement now days db in
  In r out ->
  1 <= PostEngagement.engagement_rank r <= Z.of_nat (length out) /\
  (PostEngagement.engagement_rank r = 1 <->
   forall r', In r' out -> combined r' <= combined r).
Proof.
  intros out Hr. rewrite (engagement_rank_formula now days db r Hr).
  fold out. unfold count_rows.
  pose proof (filter_length_excluding
                (fun r' => combined r <? combined r') out r Hr
                (Z.ltb_irrefl _)) as Hlt.
  split; [lia|]. split.
  - intros H r' Hr'.
    destruct (combined r <? combined r') eqn:E;
      [|apply Z.ltb_ge in E; exact E].
    assert (Hin : In r' (filter (fun x => combined r <? combined x) out))
      by (apply filter_In; auto).
    destruct (filter (fun x => combined r <? combined x) out);
      [destruct Hin|cbn [length] in H; lia].
  - intros H. rewrite filter_none; [reflexivity|].
    intros x Hx. apply Z.ltb_ge. now apply H.
Qed.

Lemma engagement_rank_bounds_witness :
  exists r, In r (get_post_engagement now0 30 rank_db) /\
    1 <= PostEngagement.engagement_rank r <= 3.
Proof.
  eexists. split; [left; reflexivity|].
  exact (proj1 (engagement_rank_bounds now0 30 rank_db _ (or_introl eq_refl))).
Defined.

(** X11.  Likes whose target is a comment never enter post engagement:
    dropping them from the snapshot leaves [get_post_engagement]
    unchanged. *)
Theorem post_engagement_ignores_comment_likes
    (now : timestamp) (days : Z) (db : database) :
  get_post_engagement now days (without_comment_likes db)
  = get_post_engagement now days db.
Proof.
  unfold get_post_engagement, post_stats. cbv zeta.
  assert (Hjoin : forall w, post_join (without_comment_likes db) w
                            = post_join db w).
  { intros w. unfold post_join, without_comment_likes. simpl.
    rewrite left_join_filter_implied; [reflexivity|].
    intros p l Hon. destruct (Like.post_id l); [reflexivity|discriminate]. }
  now rewrite Hjoin.
Qed.

(** ** User engagement summary: one row per user, counts, rates *)

Lemma users_pk_keys db : users_pk db -> NoDup (map user_key_of (users db)).
Proof.
  unfold users_pk. intros H.
  apply (NoDup_map_inv fst). rewrite map_map. exact H.
Qed.

Lemma user_join_keys db k :
  In k (map (fun r => user_key_of (uj_user r)) (user_join db)) <->
  In k (map user_key_of (users db)).
Proof.
  rewrite !in_map_iff. split.
  - intros ([[[[[u op] ol] oc] f] fl] & Hk & Hr).
    apply in_user_join in Hr as (Hu & _). exists u. auto.
  - intros (u & Hk & Hu).
    destruct (null_extend_inhabited (posts_of db (User.user_id u)))
      as (op & Hop).
    destruct (null_extend_inhabited
                (filter (fun l => sql_eq (option_map Post.post_id op)
                                         (Like.post_id l)) (likes db)))
      as (ol & Hol).
    destruct (null_extend_inhabited
                (filter (fun c => sql_eq (option_map Post.post_id op)
                                         (Some (Comment.post_id c)))
                        (comments db))) as (oc & Hoc).
    destruct (null_extend_inhabited (followers_of db (User.user_id u)))
      as (f & Hf).
    destruct (null_extend_inhabited
                (filter (fun e => User.user_id u =? Follow.follower_id e)
                        (follows db))) as (fl & Hfl).
    exists (u, op, ol, oc, f, fl). split; [exact Hk|].
    apply in_user_join. repeat split; auto.
Qed.

Lemma likes_received_order_total (a b : UserEngagement.t) :
  (UserEngagement.likes_received b <=? UserEngagement.likes_received a)
  = false ->
  (UserEngagement.likes_received a <=? UserEngagement.likes_received b)
  = true.
Proof. rewrite Z.leb_gt, Z.leb_le. lia. Qed.

Lemma likes_received_order_trans (a b c : UserEngagement.t) :
  (UserEngagement.likes_received b <=? UserEngagement.likes_received a)
  = true ->
  (UserEngagement.likes_received c <=? UserEngagement.likes_received b)
  = true ->
  (UserEngagement.likes_received c <=? UserEngagement.likes_received a)
  = true.
Proof. rewrite !Z.leb_le. lia. Qed.

(** X12.  With unique user ids the summary has exactly one row per user of
    the users table, users without posts, likes or followers included, and
    the rows are ordered by [likes_received] descending. *)
Theorem user_summary_one_row_per_user (db : database) :
  users_pk db ->
  let out := get_user_engagement_summary db in
  Permutation
    (map (fun r => (UserEngagement.user_id r, UserEngagement.username r)) out)
    (map user_key_of (users db)) /\
  length out = length (users db) /\
  StronglySorted
    (fun a b => UserEngagement.likes_received b
                <= UserEngagement.likes_received a)
    out.
Proof.
  intros Hpk out.
  assert (Hperm : Permutation
    (map (fun r => (UserEngagement.user_id r, UserEngagement.username r)) out)
    (map user_key_of (users db))).
  { unfold out, get_user_engagement_summary.
    eapply perm_trans;
      [apply Permutation_map, Permutation_sym, order_by_perm|].
    unfold sql_group_by. rewrite !map_map. cbn [user_engagement_row fst snd
      UserEngagement.user_id UserEngagement.username].
    rewrite (map_ext _ (fun k : Z * string => k)) by (intros [i n]; reflexivity).
    rewrite map_id. apply NoDup_Permutation.
    - apply NoDup_nodup.
    - now apply users_pk_keys.
    - intros k. rewrite nodup_In. apply user_join_keys. }
  split; [exact Hperm|]. split.
  - apply Permutation_length in Hperm. now rewrite !length_map in Hperm.
  - unfold out, get_user_engagement_summary.
    match goal with |- StronglySorted _ (sql_order_by ?bf ?l) =>
      pose proof (order_by_sorted bf likes_received_order_total
                    likes_received_order_trans l) as Hs
    end.
    induction Hs as [|a l _ IH Hall]; constructor; auto.
    eapply Forall_impl; [|exact Hall]. intros b Hb. now apply Z.leb_le.
Qed.

Lemma user_summary_one_row_per_user_witness :
  users_pk comment_like_db /\
  length (get_user_engagement_summary comment_like_db) = 4%nat.
Proof.
  assert (Hpk : users_pk comment_like_db)
    by (unfold users_pk; simpl; concrete_nodup).
  split; [exact Hpk|].
  exact (proj1 (proj2 (user_summary_one_row_per_user comment_like_db Hpk))).
Defined.

(** X13.  In every row of the summary, [post_count] is the number of
    distinct posts of the user, [follower_count] the number of distinct
    users following the user and [following_count] the number of distinct
    users the user follows; [avg_like_rate] and [avg_comment_rate] are NULL
    exactly when [follower_count] is 0, and otherwise the received likes
    (comments) times 100 over the follower count, rounded to two
    decimals. *)
Theorem user_summary_counts_and_rates (db : database) (r : UserEngagement.t) :
  In r (get_user_engagement_summary db) ->
  let uid := UserEngagement.user_id r in
  let followers := UserEngagement.follower_count r in
  UserEngagement.post_count r =
    count_distinct (map (fun p => Some (Post.post_id p)) (posts_of db uid)) /\
  followers = distinct_followers db uid /\
  UserEngagement.following_count r =
    count_distinct
      (map (fun e => Some (Follow.followee_id e))
           (filter (fun e => uid =? Follow.follower_id e) (follows db))) /\
  (UserEngagement.avg_like_rate r = None <-> followers = 0) /\
  (UserEngagement.avg_comment_rate r = None <-> followers = 0) /\
  (followers <> 0 ->
   UserEngagement.avg_like_rate r =
     Some (round2 (inject_Z (UserEngagement.likes_received r * 100)
                   / inject_Z followers)) /\
   UserEngagement.avg_comment_rate r =
     Some (round2 (inject_Z (UserEngagement.comments_received r * 100)
                   / inject_Z followers))).
Proof.
  unfold get_user_engagement_summary. rewrite in_order_by, in_map_iff.
  intros ([key g] & <- & Hg). apply in_group_by in Hg as [Hkey ->].
  apply in_map_iff in Hkey as (r0 & Hkey0 & Hin0).
  destruct r0 as [[[[[u0 op0] ol0] oc0] f0] fl0].
  apply in_user_join in Hin0 as (Hu0 & Hop0 & Hol0 & Hoc0 & Hf0 & Hfl0).
  set (grp := filter _ (user_join db)).
  assert (Hgrp : forall u op ol oc f fl,
            In (u, op, ol, oc, f, fl) grp <->
            In (u, op, ol, oc, f, fl) (user_join db) /\
            user_key_of u = key).
  { intros. unfold grp. now rewrite filter_In, eqb_of_true. }
  unfold uj_user in Hkey0. simpl in Hkey0. subst key.
  unfold user_engagement_row. cbv zeta.
  cbn [fst snd UserEngagement.post_count UserEngagement.follower_count
       UserEngagement.following_count UserEngagement.user_id
       UserEngagement.avg_like_rate UserEngagement.avg_comment_rate
       UserEngagement.likes_received UserEngagement.comments_received].
  unfold user_key_of in *. cbn [fst] in *.
  assert (Hid : forall u, (User.user_id u, User.username u)
                          = (User.user_id u0, User.username u0) ->
                User.user_id u = User.user_id u0) by (intros u H; congruence).
  split; [|split; [|split]].
  - apply count_distinct_ext. intros z. rewrite !in_map_iff. split.
    + intros ([[[[[u op] ol] oc] f] fl] & Hz & Hr). unfold uj_post in Hz.
      simpl in Hz. destruct op as [p|]; [|discriminate].
      apply Hgrp in Hr as [Hr Hk]. apply Hid in Hk.
      apply in_user_join in Hr as (_ & Hp & _).
      rewrite in_null_extend_Some, Hk in Hp. eauto.
    + intros (p & Hz & Hp).
      destruct (null_extend_inhabited
                  (filter (fun l => sql_eq (option_map Post.post_id (Some p))
                                           (Like.post_id l)) (likes db)))
        as (ol & Hol).
      destruct (null_extend_inhabited
                  (filter (fun c => sql_eq (option_map Post.post_id (Some p))
                                           (Some (Comment.post_id c)))
                          (comments db))) as (oc & Hoc).
      exists (u0, Some p, ol, oc, f0, fl0). split; [exact Hz|].
      apply Hgrp. split; [|reflexivity]. apply in_user_join.
      repeat split; auto. now apply in_null_extend_Some.
  - unfold distinct_followers. apply count_distinct_ext. intros z.
    rewrite !in_map_iff. split.
    + intros ([[[[[u op] ol] oc] f] fl] & Hz & Hr). unfold uj_follower in Hz.
      simpl in Hz. destruct f as [e|]; [|discriminate].
      apply Hgrp in Hr as [Hr Hk]. apply Hid in Hk.
      apply in_user_join in Hr as (_ & _ & _ & _ & He & _).
      rewrite in_null_extend_Some, Hk in He. eauto.
    + intros (e & Hz & He). exists (u0, op0, ol0, oc0, Some e, fl0).
      split; [exact Hz|]. apply Hgrp. split; [|reflexivity].
      apply in_user_join. repeat split; auto. now apply in_null_extend_Some.
  - apply count_distinct_ext. intros z. rewrite !in_map_iff. split.
    + intros ([[[[[u op] ol] oc] f] fl] & Hz & Hr).
      unfold uj_following in Hz. simpl in Hz.
      destruct fl as [e|]; [|discriminate].
      apply Hgrp in Hr as [Hr Hk]. apply Hid in Hk.
      apply in_user_join in Hr as (_ & _ & _ & _ & _ & He).
      rewrite in_null_extend_Some, Hk in He. eauto.
    + intros (e & Hz & He). exists (u0, op0, ol0, oc0, f0, Some e).
      split; [exact Hz|]. apply Hgrp. split; [|reflexivity].
      apply in_user_join. repeat split; auto. now apply in_null_extend_Some.
  - unfold rate_per_follower, nullif.
    destruct (count_distinct _ =? 0) eqn:E.
    + apply Z.eqb_eq in E. simpl. repeat split; auto; congruence.
    + apply Z.eqb_neq in E. simpl. repeat split; auto; try discriminate;
        try congruence.
Qed.

Lemma user_summary_counts_and_rates_witness :
  exists r, In r (get_user_engagement_summary comment_like_db) /\
    UserEngagement.post_count r = 1 /\
    UserEngagement.follower_count r = 1.
Proof.
  eexists. split; [left; reflexivity|].
  destruct (user_summary_counts_and_rates comment_like_db _
              (or_introl eq_refl)) as (Hp & Hf & _).
  split; [rewrite Hp|rewrite Hf]; reflexivity.
Defined.

(** ** Top contributors: limit, one row per user, score *)

Lemma activity_join_keys db w k :
  In k (map (fun r => user_key_of (aj_user r)) (activity_join db w)) <->
  In k (map user_key_of (users db)).
Proof.
  rewrite !in_map_iff. split.
  - intros ([[[[[u op] oc] ol] f] f2] & Hk & Hr).
    apply in_activity_join in Hr as (Hu & _). exists u. auto.
  - intros (u & Hk & Hu).
    destruct (null_extend_inhabited (recent_posts db w (User.user_id u)))
      as (op & Hop).
    destruct (null_extend_inhabited (recent_comments db w (User.user_id u)))
      as (oc & Hoc).
    destruct (null_extend_inhabited (recent_likes db w (User.user_id u)))
      as (ol & Hol).
    destruct (null_extend_inhabited (recent_following db w (User.user_id u)))
      as (f & Hf).
    destruct (null_extend_inhabited (recent_followers db w (User.user_id u)))
      as (f2 & Hf2).
    exists (u, op, oc, ol, f, f2). split; [exact Hk|].
    apply in_activity_join. repeat split; auto.
Qed.

Lemma user_activity_one_row_per_user db w :
  users_pk db ->
  Permutation
    (map (fun r => (Contributor.user_id r, Contributor.username r))
         (user_activity db w))
    (map user_key_of (users db)).
Proof.
  intros Hpk. unfold user_activity, sql_group_by. rewrite !map_map.
  cbn [user_activity_row fst snd Contributor.user_id Contributor.username].
  rewrite (map_ext _ (fun k : Z * string => k)) by (intros [i n]; reflexivity).
  rewrite map_id. apply NoDup_Permutation.
  - apply NoDup_nodup.
  - now apply users_pk_keys.
  - intros k. rewrite nodup_In. apply activity_join_keys.
Qed.

(** X14.  A negative [limit] makes every call of [get_top_contributors]
    fail.  With unique user ids, every result has
    [min(limit, number of users)] rows, users without any activity in the
    window included; every row belongs to a user of the table, and its
    [activity_score] is [3 * posts + 2 * comments + likes
    + 5 * new followers], which is never negative and does not depend on
    [new_following].  A call returns when the lookback fits the day field
    of an interval, the window start is a timestamp of the engine and the
    limit is a non-negative [bigint]. *)
Theorem top_contributors_limit_and_score
    (now : timestamp) (days limit : Z) (db : database) :
  users_pk db ->
  (limit < 0 ->
   forall res, get_top_contributors_returns now days limit db res ->
     res = Raise DataError) /\
  (forall out, get_top_contributors_returns now days limit db (Ok out) ->
     length out = Nat.min (Z.to_nat limit) (length (users db)) /\
     forall r, In r out ->
       (exists u, In u (users db) /\
          Contributor.user_id r = User.user_id u /\
          Contributor.username r = User.username u) /\
       Contributor.activity_score r =
         Contributor.post_count r * 3 + Contributor.comment_count r * 2
         + Contributor.like_count r * 1 + Contributor.new_followers r * 5 /\
       0 <= Contributor.activity_score r) /\
  (-2147483648 <= days <= 2147483647 ->
   pg_timestamp_min <= now - days * 86400000000 < pg_timestamp_end ->
   0 <= limit <= 9223372036854775807 ->
   exists out,
     get_top_contributors now days limit db = Ok out /\
     get_top_contributors_returns now days limit db (Ok out)).
Proof.
  intros Hpk. split; [|split].
  - intros Hneg res. unfold get_top_contributors_returns.
    destruct (window_start now days) as [w|e] eqn:E.
    + intros (sorted & _ & ->). unfold sql_limit.
      apply Z.ltb_lt in Hneg. now rewrite Hneg.
    + intros ->. unfold window_start in E.
      destruct (_ && _) in E; [discriminate|]. now inversion E.
  - intros out Hout.
    destruct (top_contributors_returns_ok _ _ _ _ _ Hout)
      as (_ & sorted & [Hsperm _] & Hlim).
    set (w := now - days * 86400000000) in *.
    pose proof (user_activity_one_row_per_user db w Hpk) as Hperm.
    split.
    + apply sql_limit_ok in Hlim as [_ ->].
      rewrite length_firstn.
      rewrite <- (Permutation_length Hsperm).
      apply Permutation_length in Hperm. rewrite !length_map in Hperm.
      now rewrite Hperm.
    + intros r Hr.
      assert (Hin : In r (user_activity db w)).
      { apply (Permutation_in _ (Permutation_sym Hsperm)).
        exact (in_limit _ _ _ _ Hlim Hr). }
      split.
      * assert (Hk : In (Contributor.user_id r, Contributor.username r)
                        (map user_key_of (users db))).
        { apply (Permutation_in _ Hperm).
          apply (in_map (fun r => (Contributor.user_id r,
                                   Contributor.username r))). exact Hin. }
        apply in_map_iff in Hk as (u & Hk & Hu). exists u.
        unfold user_key_of in Hk. inversion Hk. auto.
      * unfold user_activity in Hin. apply in_map_iff in Hin as (g & <- & _).
        cbn [user_activity_row Contributor.activity_score
             Contributor.post_count Contributor.comment_count
             Contributor.like_count Contributor.new_followers].
        split; [reflexivity|].
        repeat match goal with
               | |- context [count_distinct ?l] =>
                   let H := fresh "Hnn" in
                   pose proof (count_distinct_nonneg l) as H;
                   generalize dependent (count_distinct l); intros
               end.
        lia.
  - intros Hdays Hw Hlimit.
    pose proof (get_top_contributors_admissible now days limit db) as Hadm.
    unfold get_top_contributors in *.
    rewrite (window_start_in_range now days Hdays Hw) in *.
    cbn [bind] in *. unfold sql_limit in *.
    destruct Hlimit as [H0 H1].
    apply Z.ltb_ge in H0, H1. rewrite H0, H1 in *. cbn [orb] in *.
    eexists. split; [reflexivity|exact Hadm].
Qed.

Lemma top_contributors_limit_and_score_witness :
  users_pk five_idle_db /\
  (forall res, get_top_contributors_returns now0 30 (-1) five_idle_db res ->
     res = Raise DataError) /\
  exists out, get_top_contributors now0 30 3 five_idle_db = Ok out /\
    length out = 3%nat.
Proof.
  assert (Hpk : users_pk five_idle_db)
    by (unfold users_pk; simpl; concrete_nodup).
  destruct (top_contributors_limit_and_score now0 30 (-1) five_idle_db Hpk)
    as [Hneg _].
  destruct (top_contributors_limit_and_score now0 30 3 five_idle_db Hpk)
    as (_ & Hlen & Hret).
  split; [exact Hpk|]. split; [apply Hneg; lia|].
  destruct Hret as (out & Hout & Hadm);
    [lia|unfold now0, pg_timestamp_min, pg_timestamp_end; lia|lia|].
  exists out. split; [exact Hout|]. exact (proj1 (Hlen out Hadm)).
Defined.

(** ** Follower network: rows *)

(** X15.  The rows of [get_follower_network] are exactly the follow edges
    whose two endpoints exist in the users table, with both endpoints
    resolved to usernames (an edge with a missing endpoint yields no row);
    the frame has its three columns unless it has no row, and then it has
    none.  With unique user ids and existing endpoints the rows are, up to
    their order, the follow edges with their endpoints named: one row per
    follow edge. *)
Theorem follower_network_resolves_edges (db : database) :
  let net := get_follower_network db in
  (forall e, In e (records net) <->
     exists f u1 u2,
       In f (follows db) /\ In u1 (users db) /\ In u2 (users db) /\
       Follow.follower_id f = User.user_id u1 /\
       Follow.followee_id f = User.user_id u2 /\
       e = NetworkEdge.mk (User.username u1) (User.username u2)
                          (Follow.follow_time f)) /\
  (records net = [] -> columns net = []) /\
  (records net <> [] -> columns net = network_labels) /\
  (users_pk db -> follows_fk db ->
   Permutation (records net)
     (map (fun f => NetworkEdge.mk (name_of db (Follow.follower_id f))
                                   (name_of db (Follow.followee_id f))
                                   (Follow.follow_time f)) (follows db))).
Proof.
  intros net. unfold net, get_follower_network.
  rewrite records_DataFrame. split; [|split; [|split]].
  - intros e. rewrite in_map_iff. split.
    + intros ([[f u1] u2] & <- & Hin).
      apply in_inner_join in Hin as (Hin & Hu2 & H2).
      apply in_inner_join in Hin as (Hf & Hu1 & H1).
      simpl in H2. apply Z.eqb_eq in H1, H2.
      exists f, u1, u2. repeat split; auto.
    + intros (f & u1 & u2 & Hf & Hu1 & Hu2 & H1 & H2 & ->).
      exists (f, u1, u2). split; [reflexivity|].
      apply in_inner_join. split; [|split; [assumption|]].
      * apply in_inner_join. repeat split; auto. now apply Z.eqb_eq.
      * simpl. now apply Z.eqb_eq.
  - intros H. rewrite H. reflexivity.
  - intros H. destruct (map _ _); [congruence|reflexivity].
  - intros Hpk Hfk.
    rewrite (follower_network_rows db Hpk Hfk) by apply incl_refl.
    apply Permutation_refl.
Qed.

Lemma follower_network_resolves_edges_witness :
  users_pk square_db /\ follows_fk square_db /\
  length (records (get_follower_network square_db)) = 6%nat.
Proof.
  destruct square_db_constraints as (Hpk & Hfk).
  split; [exact Hpk|]. split; [exact Hfk|].
  rewrite (Permutation_length
             (proj2 (proj2 (proj2 (follower_network_resolves_edges square_db)))
                Hpk Hfk)).
  reflexivity.
Defined.

(** ** Controversial posts: replies *)

Lemma NoDup_inner_join {A B} (on : A -> B -> bool) l r :
  NoDup l -> NoDup r -> NoDup (sql_inner_join on l r).
Proof.
  intros Hl Hr. unfold sql_inner_join.
  induction Hl as [|a l Hni Hl IH]; simpl; [constructor|].
  apply NoDup_app.
  - apply NoDup_map_NoDup_ForallPairs; [|now apply NoDup_filter].
    intros x y _ _ H. congruence.
  - exact IH.
  - intros [a' b] H1 H2. apply in_map_iff in H1 as (b' & Heq & _).
    inversion Heq; subst a' b'.
    apply in_flat_map in H2 as (a2 & Ha2 & Hin).
    apply in_map_iff in Hin as (b2 & Heq2 & _). inversion Heq2; subst.
    contradiction.
Qed.

Section ReplyCount.
Variable db : database.
Hypothesis Hpk : comments_pk db.

Let reply_join : list (Comment.t * Comment.t) :=
  sql_inner_join
    (fun c1 c2 => sql_eq (Some (Comment.comment_id c1))
                         (Comment.parent_comment_id c2))
    (comments db) (comments db).

Let reply_group (pid : Z) : list (Comment.t * Comment.t) :=
  filter (fun r => eqb_of Z.eq_dec (Comment.post_id (fst r)) pid) reply_join.

Lemma in_reply_group pid c1 c2 :
  In (c1, c2) (reply_group pid) <->
  In c1 (comments db) /\ In c2 (comments db) /\
  Comment.parent_comment_id c2 = Some (Comment.comment_id c1) /\
  Comment.post_id c1 = pid.
Proof.
  unfold reply_group, reply_join.
  rewrite filter_In, eqb_of_true, in_inner_join. simpl.
  destruct (Comment.parent_comment_id c2) as [x|]; simpl.
  - rewrite Z.eqb_eq. split.
    + intros ((H1 & H2 & H3) & H4). subst. auto.
    + intros (H1 & H2 & H3 & H4). inversion H3. auto.
  - split; [intros ((_ & _ & H) & _)|intros (_ & _ & H & _)]; discriminate.
Qed.

Lemma in_replies_under pid c2 :
  In c2 (replies_under db pid) <->
  exists c1, In (c1, c2) (reply_group pid).
Proof.
  unfold replies_under. rewrite filter_In, existsb_exists. split.
  - intros (Hc2 & c1 & Hc1 & H). apply andb_prop in H as [Hp Hpar].
    apply Z.eqb_eq in Hp. exists c1. apply in_reply_group.
    repeat split; auto.
    destruct (Comment.parent_comment_id c2) as [x|]; [|discriminate].
    simpl in Hpar. apply Z.eqb_eq in Hpar. now subst.
  - intros (c1 & H). apply in_reply_group in H as (Hc1 & Hc2 & Hpar & Hp).
    split; [assumption|]. exists c1. split; [assumption|].
    rewrite Hpar. simpl. rewrite Z.eqb_refl. rewrite andb_true_r.
    now apply Z.eqb_eq.
Qed.

(** Under the primary key a reply has one parent, so the rows of a group
    correspond one to one to the replies. *)
Lemma reply_group_length pid :
  length (reply_group pid) = length (replies_under db pid).
Proof.
  assert (Hnd : NoDup (comments db)) by (eapply NoDup_map_inv; exact Hpk).
  rewrite <- (length_map snd (reply_group pid)).
  apply Permutation_length. apply NoDup_Permutation.
  - apply NoDup_map_NoDup_ForallPairs.
    + intros [c1 c2] [c1' c2'] H1 H2 Heq. simpl in Heq. subst c2'.
      apply in_reply_group in H1 as (Hc1 & _ & Hp1 & _).
      apply in_reply_group in H2 as (Hc1' & _ & Hp2 & _).
      f_equal.
      apply (pk_injective Comment.comment_id (comments db)); auto.
      congruence.
    + unfold reply_group. apply NoDup_filter.
      now apply NoDup_inner_join.
  - unfold replies_under. now apply NoDup_filter.
  - intros c2. rewrite in_replies_under, in_map_iff. split.
    + intros ([c1 c2'] & Heq & H). simpl in Heq. subst c2'. now exists c1.
    + intros (c1 & H). now exists (c1, c2).
Qed.

Lemma in_reply_depth d :
  In d (reply_depth db) ->
  ReplyDepth.reply_count d = count_rows (reply_group (ReplyDepth.post_id d)).
Proof.
  unfold reply_depth. rewrite in_map_iff.
  intros ([key g] & <- & Hg). apply in_group_by in Hg as [_ ->].
  reflexivity.
Qed.

Lemma reply_depth_has_group pid :
  reply_group pid <> [] ->
  exists d, In d (reply_depth db) /\ ReplyDepth.post_id d = pid.
Proof.
  intros Hne. destruct (reply_group pid) as [|[c1 c2] g] eqn:E; [congruence|].
  assert (Hin : In (c1, c2) (reply_group pid)) by (rewrite E; now left).
  unfold reply_group in Hin. apply filter_In in Hin as [Hin Hk].
  apply eqb_of_true in Hk. simpl in Hk.
  unfold reply_depth. eexists. split.
  - apply in_map_iff. eexists. split; [reflexivity|].
    apply in_group_by. split; [|reflexivity].
    apply in_map_iff. exists (c1, c2). split; [reflexivity|exact Hin].
  - simpl. exact Hk.
Qed.

Lemma controversial_reply_count_rows min_comments min_stddev r :
  In r (identify_controversial_posts min_comments min_stddev db) ->
  Controversial.reply_count r
  = count_rows (replies_under db (Controversial.post_id r)).
Proof.
  unfold identify_controversial_posts. rewrite in_order_by, in_map_iff.
  intros ([[[p cs] rd] u] & <- & Hr). apply filter_In in Hr as [Hr _].
  apply in_inner_join in Hr as (Hr & _ & _).
  apply in_left_join in Hr as (_ & Hrd). simpl in Hrd.
  cbn [controversial_row fst snd Controversial.reply_count
       Controversial.post_id].
  unfold count_rows. rewrite <- reply_group_length.
  destruct rd as [d|].
  - rewrite in_null_extend_Some in Hrd. apply filter_In in Hrd as [Hd Hid].
    apply Z.eqb_eq in Hid. simpl. rewrite (in_reply_depth d Hd).
    now rewrite Hid.
  - simpl. destruct (reply_group (Post.post_id p)) as [|x g] eqn:E;
      [reflexivity|].
    exfalso.
    destruct (reply_depth_has_group (Post.post_id p)) as (d & Hd & Hid).
    { rewrite E. discriminate. }
    assert (Hin : In d (filter (fun rd => Post.post_id p
                                          =? ReplyDepth.post_id rd)
                               (reply_depth db))).
    { apply filter_In. split; [assumption|]. apply Z.eqb_eq. now rewrite Hid. }
    destruct (filter _ (reply_depth db)) as [|y l]; [destruct Hin|].
    simpl in Hrd. destruct Hrd as [H|H]; [discriminate|].
    apply in_map_iff in H as (z & Hz & _). discriminate.
Qed.
End ReplyCount.

(** X17.  With unique comment ids, [reply_count] of a reported post is the
    number of comments whose parent comment belongs to that post, and 0
    (not NULL) when there is none. *)
Theorem controversial_reply_count_counts_replies
    (min_comments : Z) (min_stddev : Q) (db : database)
    (r : Controversial.t) :
  comments_pk db ->
  In r (identify_controversial_posts min_comments min_stddev db) ->
  Controversial.reply_count r
  = count_rows (replies_under db (Controversial.post_id r)).
Proof.
  intros Hpk Hr.
  exact (controversial_reply_count_rows db Hpk min_comments min_stddev r Hr).
Qed.

Lemma controversial_reply_count_counts_replies_witness :
  exists r, In r (identify_controversial_posts 1 2 debate_db) /\
    Controversial.reply_count r = 1.
Proof.
  assert (Hpk : comments_pk debate_db)
    by (unfold comments_pk; simpl; concrete_nodup).
  eexists. split; [left; reflexivity|].
  rewrite (controversial_reply_count_counts_replies 1 2 debate_db _ Hpk
             (or_introl eq_refl)).
  reflexivity.
Defined.

(** ** Activity timeline: size *)

Lemma inner_join_fk_length {A} (db : database) (key : A -> Z) (l : list A) :
  users_pk db ->
  (forall a, In a l ->
     exists u, In u (users db) /\ User.user_id u = key a) ->
  length (sql_inner_join (fun a u => key a =? User.user_id u) l (users db))
  = length l.
Proof.
  intros Hpk. unfold sql_inner_join.
  induction l as [|a l IH]; intros Hfk; [reflexivity|].
  cbn [flat_map]. rewrite length_app, length_map.
  destruct (Hfk a (or_introl eq_refl)) as (u & Hu & Hid).
  rewrite (filter_user_by_id db Hpk (key a) u Hu Hid).
  rewrite IH by (intros x Hx; apply Hfk; now right). reflexivity.
Qed.

(** X18.  When user ids are unique and every comment and like has an
    existing author, the timeline of a post has one event per comment on
    the post and one per like of the post; a timeline without events is a
    frame without columns. *)
Theorem timeline_one_event_per_comment_and_like (post_id : Z) (db : database) :
  users_pk db -> comment_author_fk db -> like_author_fk db ->
  let timeline := get_post_activity_timeline post_id db in
  length (records timeline)
  = (length (comments_on db post_id) + length (likes_on db post_id))%nat /\
  (records timeline = [] -> columns timeline = []) /\
  (records timeline <> [] -> columns timeline = timeline_labels).
Proof.
  intros Hpk Hcfk Hlfk timeline.
  unfold timeline, get_post_activity_timeline. cbv zeta.
  rewrite records_DataFrame. split; [|split].
  - rewrite <- (Permutation_length (order_by_perm _ _)).
    rewrite length_app, !length_map.
    rewrite (inner_join_fk_length db Comment.user_id), 
            (inner_join_fk_length db Like.user_id); auto.
    + f_equal.
      * unfold comments_on. f_equal. apply filter_ext. intros c.
        apply Z.eqb_sym.
      * unfold likes_on. f_equal. apply filter_ext. intros l.
        destruct (Like.post_id l); simpl; [apply Z.eqb_sym|reflexivity].
    + intros l Hl. apply filter_In in Hl as [Hl _]. now apply Hlfk.
    + intros c Hc. apply filter_In in Hc as [Hc _]. now apply Hcfk.
  - intros H. rewrite H. reflexivity.
  - intros H. destruct (sql_order_by _ _); [congruence|reflexivity].
Qed.

Lemma timeline_one_event_per_comment_and_like_witness :
  users_pk comment_like_db /\
  length (records (get_post_activity_timeline 1 comment_like_db)) = 2%nat.
Proof.
  assert (Hpk : users_pk comment_like_db)
    by (unfold users_pk; simpl; concrete_nodup).
  split; [exact Hpk|].
  refine (proj1 (timeline_one_event_per_comment_and_like 1 comment_like_db
                   Hpk _ _)).
  - intros c Hc. simpl in Hc. destruct Hc as [<-|[]].
    exists bob. simpl. auto.
  - intros l Hl. simpl in Hl. destruct Hl as [<-|[<-|[]]];
      [exists carol|exists dave]; simpl; auto 6.
Defined.

(** ** Thresholds *)

Lemma filter_filter_and {A} (f g : A -> bool) l :
  filter f (filter g l) = filter (fun x => g x && f x) l.
Proof.
  induction l as [|x l IH]; simpl; [reflexivity|].
  destruct (g x); simpl; [destruct (f x)|]; now rewrite IH.
Qed.

Lemma root_ge_monotone s (m1 m2 : Q) :
  (m1 <= m2)%Q -> root_ge s m2 = true -> root_ge s m1 = true.
Proof.
  unfold root_ge. intros Hle H. apply orb_true_iff.
  apply orb_prop in H as [H|H]; apply Qle_bool_iff in H.
  - left. apply Qle_bool_iff. lra.
  - destruct (Qlt_le_dec 0 m1) as [Hpos|Hneg].
    + right. apply Qle_bool_iff.
      apply Qle_trans with (y := (m2 * m2)%Q); [|exact H].
      apply Qle_trans with (y := (m1 * m2)%Q).
      * apply Qmult_le_l; assumption.
      * apply Qmult_le_r; lra.
    + left. now apply Qle_bool_iff.
Qed.

Lemma filter_map_comm {A B} (f : A -> B) (p : B -> bool) l :
  filter p (map f l) = map f (filter (fun a => p (f a)) l).
Proof.
  induction l as [|a l IH]; simpl; [reflexivity|].
  destruct (p (f a)); simpl; now rewrite IH.
Qed.

Lemma filter_Permutation {A} (f : A -> bool) l l' :
  Permutation l l' -> Permutation (filter f l) (filter f l').
Proof.
  induction 1 as [|x l l' _ IH|x y l|l l' l'' _ IH1 _ IH2]; simpl.
  - constructor.
  - destruct (f x); [now constructor|assumption].
  - destruct (f x), (f y); try apply Permutation_refl. apply perm_swap.
  - now apply perm_trans with (l' := filter f l').
Qed.

(** X21.  Raising [min_stddev] only removes rows from the controversial
    posts: the result for [s2 >= s1] holds, up to the order of its rows,
    the rows of the result for [s1] whose dispersion reaches [s2]. *)
Theorem controversial_posts_monotone_in_min_stddev
    (min_comments : Z) (s1 s2 : Q) (db : database) :
  (s1 <= s2)%Q ->
  Permutation
    (identify_controversial_posts min_comments s2 db)
    (filter (fun r => match Controversial.stddev_comment_length r with
                      | Some s => root_ge s s2
                      | None => false
                      end)
            (identify_controversial_posts min_comments s1 db)).
Proof.
  intros Hle. unfold identify_controversial_posts.
  eapply perm_trans; [apply Permutation_sym, order_by_perm|].
  eapply perm_trans;
    [|apply filter_Permutation, order_by_perm].
  rewrite filter_map_comm, filter_filter_and.
  match goal with
  | |- Permutation (map _ (filter ?f ?l)) (map _ (filter ?g ?l)) =>
      rewrite (filter_ext f g); [apply Permutation_refl|]
  end.
  intros [[[p cs] rd] u].
  cbn [controversial_row fst snd Controversial.stddev_comment_length].
  destruct (CommentStats.stddev_comment_length cs) as [s|]; [|reflexivity].
  destruct (root_ge s s2) eqn:E; [|now rewrite andb_false_r].
  now rewrite (root_ge_monotone s s1 s2 Hle E).
Qed.

Lemma controversial_posts_monotone_in_min_stddev_witness :
  (2 <= 5 # 2)%Q /\
  Permutation
    (identify_controversial_posts 1 (5 # 2) debate_db)
    (filter (fun r => match Controversial.stddev_comment_length r with
                      | Some s => root_ge s (5 # 2)
                      | None => false
                      end)
            (identify_controversial_posts 1 2 debate_db)).
Proof.
  split; [discriminate|].
  apply (controversial_posts_monotone_in_min_stddev 1 2 (5 # 2) debate_db).
  discriminate.
Defined.

(** ** Post engagement: one row per recent post *)

Lemma post_engagement_rows_per_recent_post
    (now : timestamp) (days : Z) (db : database) :
  posts_pk db -> users_pk db -> post_author_fk db ->
  let out := get_post_engagement now days db in
  let recent := posts_since db (now - timedelta_days days) in
  Permutation (map PostEngagement.post_id out) (map Post.post_id recent) /\
  length out = length recent.
Proof.
  intros Hppk Hupk Hfk out recent.
  assert (Hperm : Permutation (map PostEngagement.post_id out)
                              (map Post.post_id recent)).
  { unfold out, get_post_engagement. cbv zeta.
    eapply perm_trans;
      [apply Permutation_map, Permutation_sym, order_by_perm|].
    unfold post_stats, sql_group_by. rewrite !map_map.
    set (w := now - timedelta_days days).
    rewrite (map_ext _ (fun k : post_key => fst (fst (fst (fst k)))))
      by (intros [[[[pid a] n] t] tm]; reflexivity).
    assert (Hkey : forall k,
              In k (map post_key_of (post_join db w)) <->
              exists p u, In p (posts db) /\ In u (users db) /\
                Post.user_id p = User.user_id u /\
                sql_ge (Post.post_time p) (Some w) = true /\
                k = (Post.post_id p, Post.user_id p, User.username u,
                     Post.post_text p, Post.post_time p)).
    { intros k. rewrite in_map_iff. split.
      - intros ([[[[p ol] oc] u] fo] & <- & Hin).
        apply in_post_join in Hin as (Hp & _ & _ & Hu & Hpu & _ & Ht).
        exists p, u. repeat split; auto.
      - intros (p & u & Hp & Hu & Hpu & Ht & ->).
        destruct (null_extend_inhabited (likes_on db (Post.post_id p)))
          as (ol & Hol).
        destruct (null_extend_inhabited (comments_on db (Post.post_id p)))
          as (oc & Hoc).
        destruct (null_extend_inhabited (followers_of db (Post.user_id p)))
          as (fo & Hfo).
        exists (p, ol, oc, u, fo). split; [reflexivity|].
        apply in_post_join. repeat split; auto. }
    apply NoDup_Permutation.
    - apply NoDup_map_NoDup_ForallPairs; [|apply NoDup_nodup].
      intros k k' Hk Hk' Heq. apply nodup_In in Hk, Hk'.
      apply Hkey in Hk as (p & u & Hp & Hu & Hpu & _ & ->).
      apply Hkey in Hk' as (p' & u' & Hp' & Hu' & Hpu' & _ & ->).
      simpl in Heq.
      assert (p = p') as ->
        by (apply (pk_injective Post.post_id (posts db)); auto).
      assert (u = u') as ->
        by (apply (pk_injective User.user_id (users db)); auto; congruence).
      reflexivity.
    - unfold recent, posts_since. fold w.
      apply NoDup_map_NoDup_ForallPairs.
      + intros p p' Hp Hp'. apply filter_In in Hp as [Hp _], Hp' as [Hp' _].
        now apply (pk_injective Post.post_id (posts db)).
      + apply NoDup_filter. eapply NoDup_map_inv. exact Hppk.
    - intros z. rewrite !in_map_iff. split.
      + intros (k & Hz & Hk). apply nodup_In in Hk.
        apply Hkey in Hk as (p & u & Hp & Hu & Hpu & Ht & ->).
        exists p. split; [exact Hz|]. apply filter_In. auto.
      + intros (p & Hz & Hp). apply filter_In in Hp as [Hp Ht].
        destruct (Hfk p Hp) as (u & Hu & Hid).
        eexists. split; [|apply nodup_In, Hkey; exists p, u;
                          repeat split; eauto].
        exact Hz. }
  split; [exact Hperm|].
  apply Permutation_length in Hperm. now rewrite !length_map in Hperm.
Qed.

(** X24.  A call of [get_post_engagement] that returns had a lookback of
    at most 999999999 days and a start date Python can represent; with
    unique post and user ids and existing authors it returns exactly one
    row per post dated at or after [now - days], posts without likes,
    comments or followers included. *)
Theorem post_engagement_one_row_per_recent_post
    (now : timestamp) (days : Z) (db : database)
    (out : list PostEngagement.t) :
  posts_pk db -> users_pk db -> post_author_fk db ->
  get_post_engagement_call now days db = Ok out ->
  let recent := posts_since db (now - timedelta_days days) in
  Z.abs days <= 999999999 /\
  datetime_min <= now - timedelta_days days <= datetime_max /\
  Permutation (map PostEngagement.post_id out) (map Post.post_id recent) /\
  length out = length recent.
Proof.
  intros Hppk Hupk Hfk Hout recent.
  apply post_engagement_call_ok in Hout as (-> & Hdays & Hrange).
  split; [exact Hdays|]. split; [exact Hrange|].
  now apply post_engagement_rows_per_recent_post.
Qed.

Lemma post_engagement_one_row_per_recent_post_witness :
  posts_pk rank_db /\ users_pk rank_db /\ post_author_fk rank_db /\
  exists out, get_post_engagement_call now0 30 rank_db = Ok out /\
    length out = 3%nat.
Proof.
  assert (Hppk : posts_pk rank_db)
    by (unfold posts_pk; simpl; concrete_nodup).
  assert (Hupk : users_pk rank_db)
    by (unfold users_pk; simpl; concrete_nodup).
  assert (Hfk : post_author_fk rank_db).
  { intros p Hp. simpl in Hp. destruct Hp as [<-|[<-|[<-|[]]]];
      exists alice; simpl; auto. }
  split; [exact Hppk|]. split; [exact Hupk|]. split; [exact Hfk|].
  eexists. split; [reflexivity|].
  exact (proj2 (proj2 (proj2
    (post_engagement_one_row_per_recent_post now0 30 rank_db _
       Hppk Hupk Hfk eq_refl)))).
Defined.
